(** * ICMP echo codec and receive loop of [src/pkg/net/ipraw_test.go]

    A shallow embedding of the ICMP helpers the raw-IP tests carry with
    them: [icmpMessage.Marshal], [icmpEcho.Marshal],
    [parseICMPMessage], [parseICMPEcho], [ipv4Payload] and the receive
    loop of [TestConnICMPEcho] / [TestPacketConnICMPEcho].

    Conventions.
    - Go's [int] values are [Z]; none of the operations below can leave
      the range of a machine [int] when the fields start inside it.
    - A [byte] is a [Z] in [0, 256); [byte(x)] is [x mod 256].
    - [uint32] arithmetic wraps modulo [2^32].
    - A [[]byte] argument or result is a [list Z]; the [Data] field of an
      echo body is an [option (list Z)] because the code tells a nil slice
      ([None]) from an allocated one ([Some l]).
    - A function returning [(T, error)] returns a [result T]; an index or
      a slice bound out of range is the run-time panic [Panic]. *)

From Stdlib Require Import String Ascii ZArith List Lia Bool.
From Equations Require Import Equations.
Import ListNotations.
Open Scope Z_scope.

(** ** Results, errors and panics *)

Inductive result (A : Type) : Type :=
| Ok (a : A)
| Err (e : string)
| Panic.

Arguments Ok {A} a.
Arguments Err {A} e.
Arguments Panic {A}.

Definition bind {A B : Type} (r : result A) (k : A -> result B) : result B :=
  match r with
  | Ok a => k a
  | Err e => Err e
  | Panic => Panic
  end.

Notation "x <- r ;; k" := (bind r (fun x => k))
  (at level 61, r at next level, right associativity).

(** [b[i]]: panics when [i] is not below [len(b)]. *)
Definition index (b : list Z) (i : nat) : result Z :=
  match nth_error b i with
  | Some x => Ok x
  | None => Panic
  end.

(** [b[i] = v] for an index known to be in range. *)
Fixpoint store (b : list Z) (i : nat) (v : Z) : list Z :=
  match b, i with
  | [], _ => []
  | _ :: t, O => v :: t
  | h :: t, S j => h :: store t j v
  end.

(** ** Machine arithmetic *)

Definition to_byte (x : Z) : Z := x mod 256.
Definition u32 (x : Z) : Z := x mod 2 ^ 32.

Definition is_byte (x : Z) : Prop := 0 <= x < 256.
Definition is_u16 (x : Z) : Prop := 0 <= x < 65536.

(** ** Data model *)

Definition icmpv4EchoRequest : Z := 8.
Definition icmpv4EchoReply : Z := 0.
Definition icmpv6EchoRequest : Z := 128.
Definition icmpv6EchoReply : Z := 129.

(** [len] and the elements of a possibly nil slice. *)
Definition slice_len (d : option (list Z)) : Z :=
  match d with
  | None => 0
  | Some l => Z.of_nat (length l)
  end.

Definition slice_elems (d : option (list Z)) : list Z :=
  match d with
  | None => []
  | Some l => l
  end.

Record icmpEcho : Type := mkEcho {
  ID : Z;
  Seq : Z;
  Data : option (list Z)
}.

(** The field [Type] of the source is [Typ] here; [Body] is [None] for a
    nil interface value. *)
Record icmpMessage : Type := mkMessage {
  Typ : Z;
  Code : Z;
  Checksum : Z;
  Body : option icmpEcho
}.

(** ** Encoding *)

(** [Len] of a body that is there.  (On a nil [*icmpEcho] the source
    returns 0 and [Marshal] then appends nothing, as for the absent body
    [None].) *)
Definition icmpEcho_Len (p : icmpEcho) : Z := 4 + slice_len (Data p).

(** [make([]byte, 4+len(p.Data))], the four header stores and the [copy]. *)
Definition icmpEcho_Marshal (p : icmpEcho) : result (list Z) :=
  Ok ([to_byte (Z.shiftr (ID p) 8); to_byte (ID p);
       to_byte (Z.shiftr (Seq p) 8); to_byte (Seq p)]
        ++ slice_elems (Data p)).

(** [for i := 0; i < csumcv; i += 2 { s += uint32(b[i+1])<<8 | uint32(b[i]) }].
    The loop runs at most [len(b)] times, which is the fuel the callers give. *)
Fixpoint csum_loop (fuel : nat) (b : list Z) (csumcv i s : Z) : Z :=
  match fuel with
  | O => s
  | S fuel' =>
      if i <? csumcv then
        csum_loop fuel' b csumcv (i + 2)
          (u32 (s + Z.lor (Z.shiftl (nth (Z.to_nat (i + 1)) b 0) 8)
                          (nth (Z.to_nat i) b 0)))
      else s
  end.

(** The accumulator [s] of [Marshal] after the loop, the odd trailing byte
    and the two folds. *)
Definition csum (b : list Z) : Z :=
  let csumcv := Z.of_nat (length b) - 1 in
  let s := csum_loop (length b) b csumcv 0 0 in
  let s := if Z.land csumcv 1 =? 0
           then u32 (s + nth (Z.to_nat csumcv) b 0) else s in
  let s := u32 (Z.shiftr s 16 + Z.land s 0xffff) in
  u32 (s + Z.shiftr s 16).

(** [b[2] ^= byte(^s); b[3] ^= byte(^s >> 8)]. *)
Definition place_checksum (b : list Z) (s : Z) : list Z :=
  let b := store b 2 (Z.lxor (nth 2 b 0) (to_byte (u32 (Z.lnot s)))) in
  store b 3 (Z.lxor (nth 3 b 0) (to_byte (Z.shiftr (u32 (Z.lnot s)) 8))).

(** The header and body bytes before any checksum is placed. *)
Definition marshal_raw (m : icmpMessage) : result (list Z) :=
  let b := [to_byte (Typ m); to_byte (Code m); 0; 0] in
  match Body m with
  | Some p =>
      if icmpEcho_Len p =? 0 then Ok b
      else mb <- icmpEcho_Marshal p ;; Ok (b ++ mb)
  | None => Ok b
  end.

Definition icmpMessage_Marshal (m : icmpMessage) : result (list Z) :=
  b <- marshal_raw m ;;
  if (Typ m =? icmpv6EchoRequest) || (Typ m =? icmpv6EchoReply) then Ok b
  else Ok (place_checksum b (csum b)).

(** ** Decoding *)

Definition errTooShort : string := "message too short"%string.

Definition parseICMPEcho (b : list Z) : result icmpEcho :=
  let bodylen := Z.of_nat (length b) in
  b0 <- index b 0 ;; b1 <- index b 1 ;;
  b2 <- index b 2 ;; b3 <- index b 3 ;;
  let id := Z.lor (Z.shiftl b0 8) b1 in
  let seq := Z.lor (Z.shiftl b2 8) b3 in
  if 4 <? bodylen
  then Ok (mkEcho id seq (Some (skipn 4 b)))
  else Ok (mkEcho id seq None).

Definition isEchoType (t : Z) : bool :=
  (t =? icmpv4EchoRequest) || (t =? icmpv4EchoReply)
  || (t =? icmpv6EchoRequest) || (t =? icmpv6EchoReply).

Definition parseICMPMessage (b : list Z) : result icmpMessage :=
  let msglen := Z.of_nat (length b) in
  if msglen <? 4 then Err errTooShort
  else
    b0 <- index b 0 ;; b1 <- index b 1 ;;
    b2 <- index b 2 ;; b3 <- index b 3 ;;
    let m := mkMessage b0 b1 (Z.lor (Z.shiftl b2 8) b3) None in
    if 4 <? msglen then
      if isEchoType (Typ m)
      then p <- parseICMPEcho (skipn 4 b) ;;
           Ok (mkMessage (Typ m) (Code m) (Checksum m) (Some p))
      else Ok m
    else Ok m.

(** ** The receive loop of the echo tests *)

Definition ipv4Payload (b : list Z) : result (list Z) :=
  if Z.of_nat (length b) <? 20 then Ok b
  else
    b0 <- index b 0 ;;
    let hdrlen := Z.shiftl (Z.land b0 0x0f) 2 in
    if hdrlen <=? Z.of_nat (length b)
    then Ok (skipn (Z.to_nat hdrlen) b)
    else Panic.

(** What one call of [c.Read(rb)] / [c.ReadFrom(rb)] meets: a transport
    error or a datagram. *)
Inductive read_event : Type :=
| ReadError (e : string)
| Datagram (pkt : list Z).

(** Modelled from the spec: the transport ([Conn.Read], [PacketConn.ReadFrom])
    is a collaborator outside the sources.  A connection is the finite
    sequence of events its successive reads meet; a read past the end of
    the sequence is the deadline set by [SetDeadline] firing. *)
Definition conn : Type := list read_event.

(** Modelled from the spec: a successful read stores the datagram at the
    start of the buffer, cut to the buffer's length, and leaves the bytes
    behind it as they were; the loop ignores the count it returns. *)
Definition fill (rb pkt : list Z) : list Z :=
  firstn (length rb) pkt ++ skipn (length pkt) rb.

Definition errRead : string := "Read failed"%string.

Definition isEchoRequest (t : Z) : bool :=
  (t =? icmpv4EchoRequest) || (t =? icmpv6EchoRequest).

(** The body of the [for] loop after a successful read: the buffer as it
    is rebound ([rb = ipv4Payload(rb)] on ["ip4"] in [TestConnICMPEcho],
    left alone in [TestPacketConnICMPEcho]) and the message parsed from it. *)
Definition recvStep (ip4 : bool) (rb pkt : list Z)
  : result (list Z * icmpMessage) :=
  let rb := fill rb pkt in
  rb <- (if ip4 then ipv4Payload rb else Ok rb) ;;
  m <- parseICMPMessage rb ;;
  Ok (rb, m).

(** [for { read; parse; switch m.Type { case requests: continue }; break }].
    [Ok m] is the message the loop leaves in [m]; [Err] is a [t.Fatalf]. *)
Fixpoint recvLoop (ip4 : bool) (c : conn) (rb : list Z) : result icmpMessage :=
  match c with
  | [] => Err errRead
  | ReadError _ :: _ => Err errRead
  | Datagram pkt :: c' =>
      match recvStep ip4 rb pkt with
      | Ok (rb', m) =>
          if isEchoRequest (Typ m) then recvLoop ip4 c' rb' else Ok m
      | Err e => Err e
      | Panic => Panic
      end
  end.

(** ** Reference definitions the claims are compared against *)

(** The encoding that clears the checksum field, computes the checksum and
    overwrites bytes 2 and 3 with it. *)
Definition marshal_zero_then_write (m : icmpMessage) : result (list Z) :=
  b <- marshal_raw m ;;
  if (Typ m =? icmpv6EchoRequest) || (Typ m =? icmpv6EchoReply) then Ok b
  else
    let b := store (store b 2 0) 3 0 in
    let s := csum b in
    Ok (store (store b 2 (to_byte (u32 (Z.lnot s))))
              3 (to_byte (Z.shiftr (u32 (Z.lnot s)) 8))).

Definition checksum_bytes (r : result (list Z)) : option (Z * Z) :=
  match r with
  | Ok b => Some (nth 2 b 0, nth 3 b 0)
  | _ => None
  end.

(** The Internet checksum of RFC 1071: the 16-bit big-endian words of the
    message, an odd last byte padded with a zero byte, added with
    end-around carry. *)
Fixpoint be_words (b : list Z) : list Z :=
  match b with
  | x :: y :: rest => Z.lor (Z.shiftl x 8) y :: be_words rest
  | [x] => [Z.shiftl x 8]
  | [] => []
  end.

Definition onec_add16 (a w : Z) : Z :=
  let s := a + w in Z.land s 0xffff + Z.shiftr s 16.

Definition onec_sum16 (b : list Z) : Z := fold_left onec_add16 (be_words b) 0.

(** The bytes [Marshal] appends for the body. *)
Definition body_bytes (body : option icmpEcho) : list Z :=
  match body with
  | Some p =>
      to_byte (Z.shiftr (ID p) 8) :: to_byte (ID p)
      :: to_byte (Z.shiftr (Seq p) 8) :: to_byte (Seq p)
      :: slice_elems (Data p)
  | None => []
  end.

(** The payload as [parseICMPEcho] hands it back: allocated only when
    there is at least one byte. *)
Definition decoded_payload (d : option (list Z)) : option (list Z) :=
  match slice_elems d with
  | [] => None
  | l => Some l
  end.

Definition isIPv6Echo (t : Z) : bool :=
  (t =? icmpv6EchoRequest) || (t =? icmpv6EchoReply).

(** The reading of C4: some message with a nonzero [Checksum] field is
    encoded with checksum bytes other than those of the zero-then-write
    encoding. *)
Definition seeded_checksum_shows : Prop :=
  exists m : icmpMessage,
    Checksum m <> 0
    /\ checksum_bytes (icmpMessage_Marshal m)
       <> checksum_bytes (marshal_zero_then_write m).

(** [skips ip4 rb pkts rb']: read in turn into the buffer [rb], every
    datagram of [pkts] is decoded without error as an Echo Request (type 8
    or 128), and [rb'] is the buffer the loop holds afterwards. *)
Inductive skips (ip4 : bool) : list Z -> list (list Z) -> list Z -> Prop :=
| skips_nil : forall rb, skips ip4 rb [] rb
| skips_cons : forall rb pkt rb1 m pkts rb',
    recvStep ip4 rb pkt = Ok (rb1, m) ->
    isEchoRequest (Typ m) = true ->
    skips ip4 rb1 pkts rb' ->
    skips ip4 rb (pkt :: pkts) rb'.

(** The echo message the tests send for a key [(xid, xseq)]. *)
Definition echoMessage (typ xid xseq : Z) (data : list Z) : icmpMessage :=
  mkMessage typ 0 0 (Some (mkEcho xid xseq (Some data))).

(** The 60 payload bytes of the tests, ["Go Go Gadget Ping!!!"] three times. *)
Definition gadget : list Z :=
  [71; 111; 32; 71; 111; 32; 71; 97; 100; 103; 101; 116; 32; 80; 105; 110;
   103; 33; 33; 33].
Definition gadget3 : list Z := gadget ++ gadget ++ gadget.

(** A 20-byte IPv4 header without options, as a raw ["ip4"] read returns
    it in front of the ICMP message; only its first byte is inspected. *)
Definition ipv4Header : list Z := 0x45 :: repeat 0 19.

(** ** A datagram taken by itself *)

(** What one datagram decodes to when it is parsed by itself, with the
    calls the loop body makes on what it has read: [ipv4Payload] and then
    [parseICMPMessage] on ["ip4"] in [TestConnICMPEcho],
    [parseICMPMessage] alone in [TestPacketConnICMPEcho]. *)
Definition decodeAlone (ip4 : bool) (pkt : list Z) : result icmpMessage :=
  b <- (if ip4 then ipv4Payload pkt else Ok pkt) ;;
  parseICMPMessage b.

(** A datagram that, taken by itself, decodes as an Echo Request. *)
Definition isRequestDatagram (ip4 : bool) (pkt : list Z) : Prop :=
  exists m : icmpMessage,
    decodeAlone ip4 pkt = Ok m /\ isEchoRequest (Typ m) = true.

(** A raw ["ip4"] datagram: a header of 20 bytes (IHL 5, no options) in
    front of an ICMP message of at least 8 bytes. *)
Definition ip4Datagram (pkt : list Z) : Prop :=
  (28 <= length pkt)%nat /\ nth 0 pkt 0 mod 16 = 5.

(** The bytes [icmpMessage.Marshal] puts on the wire (nothing when it
    fails), and the echo message of the tests behind an IPv4 header. *)
Definition wire (m : icmpMessage) : list Z :=
  match icmpMessage_Marshal m with
  | Ok b => b
  | _ => []
  end.

Definition echoDatagram (typ xid xseq : Z) (data : list Z) : list Z :=
  ipv4Header ++ wire (echoMessage typ xid xseq data).


(** ** The checksum loop read as a sum *)

(** The accumulator of [csum] before the folds, and the folds. *)
Definition csum_acc (b : list Z) : Z :=
  let csumcv := Z.of_nat (length b) - 1 in
  let s := csum_loop (length b) b csumcv 0 0 in
  if Z.land csumcv 1 =? 0 then u32 (s + nth (Z.to_nat csumcv) b 0) else s.

Definition csum_fold (s : Z) : Z :=
  let s := u32 (Z.shiftr s 16 + Z.land s 0xffff) in
  u32 (s + Z.shiftr s 16).

(** The same accumulation by recursion on the bytes, two at a time. *)
Fixpoint wsum32 (b : list Z) (s : Z) : Z :=
  match b with
  | x :: y :: rest => wsum32 rest (u32 (s + Z.lor (Z.shiftl y 8) x))
  | [x] => u32 (s + x)
  | [] => s
  end.

(** The sum of the little-endian 16-bit words the loop reads, without
    wrap-around. *)
Fixpoint le_word_sum (b : list Z) : Z :=
  match b with
  | x :: y :: rest => (x + 256 * y) + le_word_sum rest
  | [x] => x
  | [] => 0
  end.

Definition be_word_sum (b : list Z) : Z := fold_right Z.add 0 (be_words b).

(** An echo request with identifier and sequence 0xFFFF and [2 * n]
    payload bytes 0xFF; with [n = 65535] it is too long for the 32-bit
    accumulator. *)
Fixpoint long_payload (n : nat) : list Z :=
  match n with
  | O => []
  | S n' => 255 :: 255 :: long_payload n'
  end.

Definition long_request (n : nat) : icmpMessage :=
  mkMessage icmpv4EchoRequest 0 0
            (Some (mkEcho 0xFFFF 0xFFFF (Some (long_payload n)))).


(** * Helpers of the commands in [src/cmd/gofmt/gofmt.go]

    The file holds, one after the other, [gofmt.go], the [run.go] of
    [cmd/api] and an echo server test.  Their pure helpers are embedded
    here; Go strings are [string]s (sequences of bytes). *)

(** [strings.HasPrefix(s, prefix)] and [strings.HasSuffix(s, suffix)] are
    library functions outside the sources, taken by their contract: [s]
    begins with [prefix], [s] ends with [suffix]. *)
Definition HasPrefix (s pre : string) : bool := String.prefix pre s.

Fixpoint HasSuffix (s suf : string) : bool :=
  String.eqb s suf
  || match s with
     | EmptyString => false
     | String _ s' => HasSuffix s' suf
     end.

(** ** [run.go] *)

(** The inner loop of [filterOut]: [true] when some [r] of [remove] sends
    the outer loop to [continue S]. *)
Fixpoint removed (s : string) (remove : list string) : bool :=
  match remove with
  | [] => false
  | r :: remove' =>
      if HasPrefix s r && HasPrefix s (r ++ "=")
      then true
      else removed s remove'
  end.

(** [filterOut(src, remove...)]; the result [out] grows by [append] in the
    order of [src].  (Nothing kept leaves [out] nil, here the empty list.) *)
Fixpoint filterOut (src remove : list string) : list string :=
  match src with
  | [] => []
  | s :: src' =>
      if removed s remove
      then filterOut src' remove
      else s :: filterOut src' remove
  end.

Section ApiFiles.

(** The package variable [goroot] and [filepath.Join], which is outside
    the sources. *)
Variable goroot : string.
Variable Join : list string -> string.

(** [file(s...)]: [len(s) > 1] is the third clause; [s[0]] on no argument
    at all is an index out of range. *)
Equations? file (s : list string) : result string by wf (length s) lt :=
  file [] := Panic;
  file [x] := Ok (Join [goroot; "api"; x ++ ".txt"]%string);
  file (x :: y :: rest) :=
    a <- file [x] ;; b <- file (y :: rest) ;; Ok (a ++ "," ++ b)%string.
Proof. all: cbn [length]; lia. Qed.

End ApiFiles.

(** ** [gofmt.go] *)

(** What [isGoFile] reads of an [*os.Dir]. *)
Record Dir : Type := mkDir {
  IsRegular : bool;
  Name : string
}.

Definition isGoFile (d : Dir) : bool :=
  IsRegular d && negb (HasPrefix (Name d) ".") && HasSuffix (Name d) ".go".

(** The calls [processFile] makes that can be seen from outside. *)
Inductive effect : Type :=
| Println (name : string)
| WriteFileCall (name : string) (data : list Z)
| StdoutWrite (data : list Z).

Section Gofmt.

(** The collaborators of [processFile], all outside the sources:
    [parser.ParseFile] (with the parser mode), the optional [rewrite],
    [printer.Config.Fprint] into the buffer [res], [io.WriteFile] and
    [os.Stdout.Write]; and the flags [-l] and [-w]. *)
Variable AST : Type.
Variable ParseFile : string -> list Z -> result AST.
Variable rewrite : option (AST -> AST).
Variable Fprint : AST -> result (list Z).
Variable WriteFile : string -> list Z -> result unit.
Variable StdoutWriteAll : list Z -> result unit.
Variables list_flag write_flag : bool.

(** [bytes.Compare(src, res) != 0]. *)
Definition differ (src res : list Z) : bool :=
  if list_eq_dec Z.eq_dec src res then false else true.

(** [processFile(f)] for a file of name [name] whose [io.ReadAll] gives
    [content]: the calls made, in order, and the error returned
    ([Ok tt] for nil). *)
Definition processFile (name : string) (content : result (list Z))
  : list effect * result unit :=
  match content with
  | Err e => ([], Err e)
  | Panic => ([], Panic)
  | Ok src =>
      match ParseFile name src with
      | Err e => ([], Err e)
      | Panic => ([], Panic)
      | Ok parsed =>
          let parsed := match rewrite with
                        | Some f => f parsed
                        | None => parsed
                        end in
          match Fprint parsed with
          | Err e => ([], Err e)
          | Panic => ([], Panic)
          | Ok res =>
              let listed :=
                if differ src res && list_flag then [Println name] else [] in
              let written :=
                if differ src res && write_flag
                then [WriteFileCall name res] else [] in
              let err :=
                if differ src res && write_flag
                then WriteFile name res else Ok tt in
              match err with
              | Ok _ =>
                  if negb list_flag && negb write_flag
                  then (listed ++ written ++ [StdoutWrite res],
                        StdoutWriteAll res)
                  else (listed ++ written, Ok tt)
              | failure => (listed ++ written, failure)
              end
          end
      end
  end.

End Gofmt.

(** * One exchange of [TestPacketConnICMPEcho] *)

(** The check behind the loop: the body must be an echo body carrying the
    key; anything else is a [t.Fatalf]. *)
Definition checkReply (m : icmpMessage) (xid xseq : Z) : bool :=
  match Body m with
  | Some p => negb (negb (ID p =? xid) || negb (Seq p =? xseq))
  | None => false
  end.

(** One iteration of the test for the process id [pid] and the index [i]
    of the table entry, over a connection whose writes succeed: encode the
    request, run the receive loop on a fresh buffer, check the reply.
    [Ok true] is an iteration that passes. *)
Definition packetConnExchange (typ pid i : Z) (c : conn) : result bool :=
  let xid := Z.land pid 0xffff in
  let xseq := i + 1 in
  wb <- icmpMessage_Marshal (echoMessage typ xid xseq gadget3) ;;
  m <- recvLoop false c (repeat 0 (20 + length wb)) ;;
  Ok (checkReply m xid xseq).

(** * The echo server of the TCP test (last part of [gofmt.go]) *)

(** What one [fd.Read(buf)] delivers: the bytes it stores at the start of
    [buf] (cut to the buffer, as for [fill]) and its error, if any. *)
Record read_result : Type := mkRead {
  rdata : list Z;
  rerr : option string
}.

(** The loop of [Echo] over the successive reads of [fd]; a read past the
    end of the sequence is a read on a closed connection.  The result is
    the sequence of slices handed to [fd.Write]. *)
Fixpoint echoLoop (fd : list read_result) (buf : list Z) : list (list Z) :=
  match fd with
  | [] => []
  | r :: fd' =>
      let buf := fill buf (rdata r) in
      let n := Nat.min (length (rdata r)) (length buf) in
      match rerr r with
      | Some _ => []
      | None =>
          if (n =? 0)%nat then []
          else firstn n buf :: echoLoop fd' buf
      end
  end.

(** [var buf [1024]byte]. *)
Definition Echo (fd : list read_result) : list (list Z) :=
  echoLoop fd (repeat 0 1024).
(** ** First checks on concrete inputs *)

Example marshal_vector :
  icmpMessage_Marshal (mkMessage 8 0 0 (Some (mkEcho 0x1234 1 (Some []))))
  = Ok [0x08; 0x00; 0xE5; 0xCA; 0x12; 0x34; 0x00; 0x01].
Proof. reflexivity. Qed.

Example onec_sum16_vector :
  onec_sum16 [0x08; 0x00; 0xE5; 0xCA; 0x12; 0x34; 0x00; 0x01] = 0xFFFF.
Proof. reflexivity. Qed.

Example parse_truncated :
  parseICMPMessage [8; 0; 0; 0; 1] = Panic.
Proof. reflexivity. Qed.

Example parse_opaque :
  parseICMPMessage [0xFF; 0; 0; 0; 0xAA; 0xBB] = Ok (mkMessage 255 0 0 None).
Proof. reflexivity. Qed.

Example ipv4Payload_strips :
  ipv4Payload (0x45 :: repeat 0 19 ++ [0; 0; 0xFF; 0xFF]) = Ok [0; 0; 0xFF; 0xFF].
Proof. reflexivity. Qed.

(** ** Bit-level facts *)

Lemma land_shiftl8_byte (x y : Z) :
  is_byte y -> Z.land (Z.shiftl x 8) y = 0.
Proof.
  intros [Hy0 Hy1].
  apply Z.bits_inj'; intros n Hn.
  rewrite Z.land_spec, Z.bits_0.
  destruct (Z.ltb_spec n 8) as [Hlt | Hge].
  - rewrite Z.shiftl_spec_low by lia. reflexivity.
  - destruct (Z.eq_dec y 0) as [-> | Hy].
    + rewrite Z.bits_0. apply andb_false_r.
    + rewrite (Z.bits_above_log2 y n), andb_false_r; trivial.
      assert (Z.log2 y < 8) by (apply Z.log2_lt_pow2; lia).
      lia.
Qed.

Lemma lor_shiftl8 (x y : Z) :
  is_byte y -> Z.lor (Z.shiftl x 8) y = 256 * x + y.
Proof.
  intros Hy.
  rewrite <- Z.lxor_lor, <- Z.add_nocarry_lxor by (apply land_shiftl8_byte; exact Hy).
  rewrite Z.shiftl_mul_pow2 by lia.
  change (2 ^ 8) with 256. lia.
Qed.

Lemma to_byte_is_byte (x : Z) : is_byte (to_byte x).
Proof. unfold is_byte, to_byte. apply Z.mod_pos_bound. lia. Qed.

Lemma to_byte_small (x : Z) : is_byte x -> to_byte x = x.
Proof. unfold is_byte, to_byte. intros H. apply Z.mod_small. exact H. Qed.

(** The two bytes [byte(v>>8)], [byte(v)] read back big-endian give [v]. *)
Lemma be16_roundtrip (v : Z) :
  is_u16 v ->
  Z.lor (Z.shiftl (to_byte (Z.shiftr v 8)) 8) (to_byte v) = v.
Proof.
  intros Hv. unfold is_u16 in Hv.
  rewrite lor_shiftl8 by apply to_byte_is_byte.
  unfold to_byte. rewrite Z.shiftr_div_pow2 by lia.
  change (2 ^ 8) with 256.
  rewrite (Z.mod_small (v / 256)).
  - pose proof (Z.div_mod v 256). lia.
  - split.
    + apply Z.div_pos; lia.
    + apply Z.div_lt_upper_bound; lia.
Qed.

(** ** Equations of the decoder on the shape of its input *)

Lemma parseICMPEcho_cons4 (i0 i1 s0 s1 : Z) (rest : list Z) :
  parseICMPEcho (i0 :: i1 :: s0 :: s1 :: rest)
  = Ok (mkEcho (Z.lor (Z.shiftl i0 8) i1) (Z.lor (Z.shiftl s0 8) s1)
               (match rest with [] => None | _ => Some rest end)).
Proof.
  unfold parseICMPEcho. cbn [index nth_error bind skipn length].
  destruct rest as [| r rest'].
  - reflexivity.
  - destruct (Z.ltb_spec 4 (Z.of_nat (S (S (S (S (length (r :: rest')))))))) as [_ | H].
    + reflexivity.
    + cbn [length] in H. lia.
Qed.

Lemma parseICMPEcho_truncated (b : list Z) :
  (length b < 4)%nat -> parseICMPEcho b = Panic.
Proof.
  intros H.
  destruct b as [| b0 [| b1 [| b2 [| b3 rest]]]]; try reflexivity.
  cbn [length] in H. lia.
Qed.

Lemma parseICMPMessage_header (t c k0 k1 : Z) :
  parseICMPMessage [t; c; k0; k1]
  = Ok (mkMessage t c (Z.lor (Z.shiftl k0 8) k1) None).
Proof. reflexivity. Qed.

Lemma parseICMPMessage_cons5 (t c k0 k1 x : Z) (rest : list Z) :
  parseICMPMessage (t :: c :: k0 :: k1 :: x :: rest)
  = if isEchoType t
    then p <- parseICMPEcho (x :: rest) ;;
         Ok (mkMessage t c (Z.lor (Z.shiftl k0 8) k1) (Some p))
    else Ok (mkMessage t c (Z.lor (Z.shiftl k0 8) k1) None).
Proof.
  unfold parseICMPMessage.
  cbn [index nth_error bind skipn length Typ Code Checksum].
  destruct (Z.ltb_spec (Z.of_nat (S (S (S (S (S (length rest))))))) 4) as [H | _];
    [lia |].
  destruct (Z.ltb_spec 4 (Z.of_nat (S (S (S (S (S (length rest)))))))) as [_ | H];
    [| lia].
  reflexivity.
Qed.

Lemma parseICMPMessage_short (b : list Z) :
  (length b < 4)%nat -> parseICMPMessage b = Err errTooShort.
Proof.
  intros H. unfold parseICMPMessage.
  destruct (Z.ltb_spec (Z.of_nat (length b)) 4) as [_ | H']; [reflexivity | lia].
Qed.

(** ** Decoder claims *)

(** C5: decoding fewer than four bytes fails with the too-short error
    (["message too short"]); no message is produced. *)
Theorem parse_fails_below_four_bytes :
  forall b : list Z,
    (length b < 4)%nat -> parseICMPMessage b = Err errTooShort.
Proof. exact parseICMPMessage_short. Qed.

Lemma parse_fails_below_four_bytes_witness :
  ((length (@nil Z) < 4)%nat /\ parseICMPMessage [] = Err errTooShort)
  /\ ((length [0x08] < 4)%nat /\ parseICMPMessage [0x08] = Err errTooShort)
  /\ ((length [0x08; 0x00; 0x00] < 4)%nat
      /\ parseICMPMessage [0x08; 0x00; 0x00] = Err errTooShort).
Proof.
  split; [| split].
  - split; [cbn [length]; lia |].
    apply (parse_fails_below_four_bytes []). cbn [length]; lia.
  - split; [cbn [length]; lia |].
    apply (parse_fails_below_four_bytes [0x08]). cbn [length]; lia.
  - split; [cbn [length]; lia |].
    apply (parse_fails_below_four_bytes [0x08; 0x00; 0x00]). cbn [length]; lia.
Defined.

(** C9: an input of at least four bytes whose first byte is none of
    0, 8, 128, 129 decodes to a message with the parsed type, code and
    big-endian checksum and no body, whatever follows the header. *)
Theorem parse_unrecognized_type_has_no_body :
  forall b : list Z,
    (4 <= length b)%nat ->
    isEchoType (nth 0 b 0) = false ->
    parseICMPMessage b
    = Ok (mkMessage (nth 0 b 0) (nth 1 b 0)
                    (Z.lor (Z.shiftl (nth 2 b 0) 8) (nth 3 b 0)) None).
Proof.
  intros b Hlen Hty.
  destruct b as [| t [| c [| k0 [| k1 rest]]]];
    try (cbn [length] in Hlen; lia).
  cbn [nth] in *.
  destruct rest as [| x rest].
  - apply parseICMPMessage_header.
  - rewrite parseICMPMessage_cons5, Hty. reflexivity.
Qed.

Lemma parse_unrecognized_type_has_no_body_witness :
  (4 <= length [0xFF; 0x00; 0x00; 0x00; 0xAA; 0xBB])%nat
  /\ isEchoType (nth 0 [0xFF; 0x00; 0x00; 0x00; 0xAA; 0xBB] 0) = false
  /\ parseICMPMessage [0xFF; 0x00; 0x00; 0x00; 0xAA; 0xBB]
     = Ok (mkMessage 255 0 0 None).
Proof.
  split; [cbn [length]; lia |].
  split; [reflexivity |].
  apply (parse_unrecognized_type_has_no_body [0xFF; 0x00; 0x00; 0x00; 0xAA; 0xBB]).
  - cbn [length]; lia.
  - reflexivity.
Defined.

(** With one to three bytes behind the header of a recognized echo type,
    [parseICMPEcho] indexes past the end of its argument. *)
Lemma parse_truncated_body_panics (b : list Z) :
  (5 <= length b <= 7)%nat ->
  isEchoType (nth 0 b 0) = true ->
  parseICMPMessage b = Panic.
Proof.
  intros Hlen Hty.
  destruct b as [| t [| c [| k0 [| k1 [| x rest]]]]];
    try (cbn [length] in Hlen; lia).
  cbn [nth] in Hty.
  rewrite parseICMPMessage_cons5, Hty.
  rewrite parseICMPEcho_truncated; [reflexivity |].
  cbn [length] in *. lia.
Qed.

(** C3: on inputs of 5, 6 and 7 bytes with a recognized echo type the
    decoder does not return the too-short error: it panics on an index
    out of range. *)
Theorem parse_truncated_body_is_a_panic :
  parseICMPMessage [8; 0; 0; 0; 1] = Panic
  /\ parseICMPMessage [0; 0; 0; 0; 1; 2] = Panic
  /\ parseICMPMessage [128; 0; 0; 0; 1; 2; 3] = Panic
  /\ parseICMPMessage [129; 0; 0; 0; 1; 2; 3] = Panic
  /\ parseICMPMessage [8; 0; 0; 0; 1] <> Err errTooShort.
Proof.
  repeat split; try (apply parse_truncated_body_panics;
                     [cbn [length]; lia | reflexivity]).
  rewrite parse_truncated_body_panics;
    [discriminate | cbn [length]; lia | reflexivity].
Qed.

(** C7, as stated, fails at the 8-byte echo request with identifier
    0x1234 and sequence 1: the payload decoded is the nil slice, not an
    allocated empty one. *)
Lemma eight_byte_payload_is_nil :
  exists p : icmpEcho,
    parseICMPMessage [0x08; 0x00; 0xE5; 0xCA; 0x12; 0x34; 0x00; 0x01]
    = Ok (mkMessage 8 0 0xE5CA (Some p))
    /\ ID p = 0x1234 /\ Seq p = 1
    /\ Data p <> Some [].
Proof.
  exists (mkEcho 0x1234 1 None).
  repeat split. discriminate.
Qed.

(** C7, amended: an 8-byte input with a recognized echo type decodes to
    an echo body whose identifier and sequence are the big-endian 16-bit
    values at offsets 4-5 and 6-7 and whose payload is the nil slice (of
    length zero). *)
Theorem parse_eight_bytes :
  forall b : list Z,
    length b = 8%nat ->
    Forall is_byte b ->
    isEchoType (nth 0 b 0) = true ->
    exists p : icmpEcho,
      parseICMPMessage b
      = Ok (mkMessage (nth 0 b 0) (nth 1 b 0)
                      (256 * nth 2 b 0 + nth 3 b 0) (Some p))
      /\ ID p = 256 * nth 4 b 0 + nth 5 b 0
      /\ Seq p = 256 * nth 6 b 0 + nth 7 b 0
      /\ Data p = None
      /\ slice_len (Data p) = 0.
Proof.
  intros b Hlen Hb Hty.
  destruct b as [| t [| c [| k0 [| k1 [| i0 [| i1 [| s0 [| s1 [| x rest]]]]]]]]];
    try discriminate Hlen.
  cbn [nth] in *.
  repeat match goal with
         | H : Forall _ (_ :: _) |- _ => inversion H; subst; clear H
         end.
  rewrite parseICMPMessage_cons5, Hty, parseICMPEcho_cons4.
  cbn [bind].
  rewrite !lor_shiftl8 by assumption.
  eexists. split; [reflexivity |].
  cbn [ID Seq Data slice_len]. repeat split.
Qed.

Lemma parse_eight_bytes_witness :
  length [0x08; 0x00; 0xE5; 0xCA; 0x12; 0x34; 0x00; 0x01] = 8%nat
  /\ exists p : icmpEcho,
      parseICMPMessage [0x08; 0x00; 0xE5; 0xCA; 0x12; 0x34; 0x00; 0x01]
      = Ok (mkMessage 8 0 (256 * 0xE5 + 0xCA) (Some p))
      /\ ID p = 256 * 0x12 + 0x34
      /\ Seq p = 256 * 0x00 + 0x01
      /\ Data p = None
      /\ slice_len (Data p) = 0.
Proof.
  split; [reflexivity |].
  apply (parse_eight_bytes [0x08; 0x00; 0xE5; 0xCA; 0x12; 0x34; 0x00; 0x01]).
  - reflexivity.
  - repeat constructor; unfold is_byte; lia.
  - reflexivity.
Defined.

(** ** Shape of the encoder's output *)

Lemma icmpEcho_Len_nonzero (p : icmpEcho) : (icmpEcho_Len p =? 0) = false.
Proof.
  apply Z.eqb_neq. unfold icmpEcho_Len, slice_len.
  destruct (Data p); lia.
Qed.

Lemma marshal_raw_eq (m : icmpMessage) :
  marshal_raw m
  = Ok (to_byte (Typ m) :: to_byte (Code m) :: 0 :: 0 :: body_bytes (Body m)).
Proof.
  unfold marshal_raw, body_bytes.
  destruct (Body m) as [p |]; [| reflexivity].
  rewrite icmpEcho_Len_nonzero. reflexivity.
Qed.

Lemma place_checksum_cons4 (t c k0 k1 s : Z) (rest : list Z) :
  place_checksum (t :: c :: k0 :: k1 :: rest) s
  = t :: c :: Z.lxor k0 (to_byte (u32 (Z.lnot s)))
      :: Z.lxor k1 (to_byte (Z.shiftr (u32 (Z.lnot s)) 8)) :: rest.
Proof. reflexivity. Qed.

Lemma icmpMessage_Marshal_eq (m : icmpMessage) :
  let raw := to_byte (Typ m) :: to_byte (Code m) :: 0 :: 0 :: body_bytes (Body m) in
  icmpMessage_Marshal m
  = Ok (if isIPv6Echo (Typ m)
        then raw
        else to_byte (Typ m) :: to_byte (Code m)
             :: to_byte (u32 (Z.lnot (csum raw)))
             :: to_byte (Z.shiftr (u32 (Z.lnot (csum raw))) 8)
             :: body_bytes (Body m)).
Proof.
  intros raw. unfold icmpMessage_Marshal.
  rewrite marshal_raw_eq. cbn [bind]. fold raw. unfold isIPv6Echo.
  destruct ((Typ m =? icmpv6EchoRequest) || (Typ m =? icmpv6EchoReply));
    [reflexivity |].
  unfold raw at 1. rewrite place_checksum_cons4, !Z.lxor_0_l. reflexivity.
Qed.

Lemma marshal_zero_then_write_eq (m : icmpMessage) :
  marshal_zero_then_write m = icmpMessage_Marshal m.
Proof.
  rewrite icmpMessage_Marshal_eq. unfold marshal_zero_then_write.
  rewrite marshal_raw_eq. cbn [bind store]. unfold isIPv6Echo.
  destruct ((Typ m =? icmpv6EchoRequest) || (Typ m =? icmpv6EchoReply));
    reflexivity.
Qed.

(** ** Encoder claims *)

(** C1, as stated, fails: the third byte of the encoding is 0xE5, not
    0xEC. *)
Lemma marshal_vector_is_not_EC_CA :
  icmpMessage_Marshal (mkMessage 8 0 0 (Some (mkEcho 0x1234 0x0001 (Some []))))
  <> Ok [0x08; 0x00; 0xEC; 0xCA; 0x12; 0x34; 0x00; 0x01].
Proof. intros H. vm_compute in H. discriminate H. Qed.

(** C1, amended: [type=8, code=0, id=0x1234, seq=1] with an empty (or
    nil) payload is encoded as [08 00 E5 CA 12 34 00 01], whatever the
    [Checksum] field holds, and these eight bytes carry a valid checksum
    over the whole message. *)
Theorem marshal_vector_is_E5_CA :
  forall ck : Z,
    icmpMessage_Marshal (mkMessage 8 0 ck (Some (mkEcho 0x1234 0x0001 (Some []))))
    = Ok [0x08; 0x00; 0xE5; 0xCA; 0x12; 0x34; 0x00; 0x01]
    /\ icmpMessage_Marshal (mkMessage 8 0 ck (Some (mkEcho 0x1234 0x0001 None)))
       = Ok [0x08; 0x00; 0xE5; 0xCA; 0x12; 0x34; 0x00; 0x01]
    /\ onec_sum16 [0x08; 0x00; 0xE5; 0xCA; 0x12; 0x34; 0x00; 0x01] = 0xFFFF.
Proof. intros ck. repeat split. Qed.

(** C4, as stated, fails: no message is encoded with checksum bytes other
    than those of the zero-then-write encoding. *)
Lemma seeded_checksum_never_shows : ~ seeded_checksum_shows.
Proof.
  intros [m [_ H]]. apply H.
  rewrite marshal_zero_then_write_eq. reflexivity.
Qed.

(** C4, amended: [Marshal] starts from checksum bytes 0 and never reads
    the [Checksum] field, so the XOR writes the computed checksum as a
    plain store would: the output is that of the zero-then-write encoding
    and is the same for every value of the field. *)
Theorem marshal_ignores_checksum_field :
  forall m : icmpMessage,
    marshal_raw m
    = Ok (to_byte (Typ m) :: to_byte (Code m) :: 0 :: 0 :: body_bytes (Body m))
    /\ icmpMessage_Marshal m = marshal_zero_then_write m
    /\ forall ck : Z,
        icmpMessage_Marshal (mkMessage (Typ m) (Code m) ck (Body m))
        = icmpMessage_Marshal m.
Proof.
  intros m. split; [apply marshal_raw_eq |].
  split; [symmetry; apply marshal_zero_then_write_eq |].
  intros ck. rewrite !icmpMessage_Marshal_eq. reflexivity.
Qed.

(** C6: for type 128 or 129 [Marshal] returns the bytes as first laid
    out, with checksum bytes 0 0 and no checksum computed; a message of
    any other type with the same code and body gets the same code byte
    and the same body bytes. *)
Theorem marshal_ipv6_leaves_checksum :
  forall m : icmpMessage,
    Typ m = icmpv6EchoRequest \/ Typ m = icmpv6EchoReply ->
    icmpMessage_Marshal m = marshal_raw m
    /\ icmpMessage_Marshal m
       = Ok (Typ m :: to_byte (Code m) :: 0 :: 0 :: body_bytes (Body m))
    /\ forall m4 : icmpMessage,
        Code m4 = Code m -> Body m4 = Body m ->
        exists k0 k1 : Z,
          icmpMessage_Marshal m4
          = Ok (to_byte (Typ m4) :: to_byte (Code m) :: k0 :: k1
                :: body_bytes (Body m)).
Proof.
  intros m Hty.
  assert (H6 : isIPv6Echo (Typ m) = true).
  { unfold isIPv6Echo. destruct Hty as [-> | ->]; reflexivity. }
  assert (Hb : to_byte (Typ m) = Typ m).
  { destruct Hty as [-> | ->]; reflexivity. }
  split; [| split].
  - rewrite icmpMessage_Marshal_eq, marshal_raw_eq, H6. reflexivity.
  - rewrite icmpMessage_Marshal_eq, H6, Hb. reflexivity.
  - intros m4 Hc Hbody. rewrite icmpMessage_Marshal_eq, Hc, Hbody.
    destruct (isIPv6Echo (Typ m4)); do 2 eexists; reflexivity.
Qed.

Lemma marshal_ipv6_leaves_checksum_witness :
  (Typ (mkMessage 128 0 0 (Some (mkEcho 0x1234 1 (Some [0xAB])))) = icmpv6EchoRequest
   \/ Typ (mkMessage 128 0 0 (Some (mkEcho 0x1234 1 (Some [0xAB])))) = icmpv6EchoReply)
  /\ icmpMessage_Marshal (mkMessage 128 0 0 (Some (mkEcho 0x1234 1 (Some [0xAB]))))
     = Ok [128; 0; 0; 0; 0x12; 0x34; 0; 1; 0xAB].
Proof.
  split; [left; reflexivity |].
  apply (marshal_ipv6_leaves_checksum
           (mkMessage 128 0 0 (Some (mkEcho 0x1234 1 (Some [0xAB]))))).
  left; reflexivity.
Defined.

(** ** Round trip *)

Lemma isEchoType_cases (t : Z) :
  isEchoType t = true -> t = 8 \/ t = 0 \/ t = 128 \/ t = 129.
Proof.
  unfold isEchoType, icmpv4EchoRequest, icmpv4EchoReply,
    icmpv6EchoRequest, icmpv6EchoReply.
  intros H.
  repeat (apply orb_true_iff in H; destruct H as [H | H]);
    apply Z.eqb_eq in H; auto.
Qed.

Lemma parse_echo_message (t c k0 k1 : Z) (p : icmpEcho) :
  isEchoType t = true ->
  is_u16 (ID p) -> is_u16 (Seq p) ->
  parseICMPMessage (t :: c :: k0 :: k1 :: body_bytes (Some p))
  = Ok (mkMessage t c (Z.lor (Z.shiftl k0 8) k1)
          (Some (mkEcho (ID p) (Seq p) (decoded_payload (Data p))))).
Proof.
  intros Hty Hid Hseq. cbn [body_bytes].
  rewrite parseICMPMessage_cons5, Hty, parseICMPEcho_cons4.
  cbn [bind]. rewrite !be16_roundtrip by assumption.
  unfold decoded_payload. destruct (slice_elems (Data p)); reflexivity.
Qed.

(** C2, as stated, fails on the checksum of the IPv6 family: the decoded
    checksum of an encoded type-128 message is 0, not the value seeded in
    the message.  (And an allocated empty payload comes back as the nil
    slice, for either family.) *)
Lemma roundtrip_loses_seeded_checksum :
  (exists m' : icmpMessage,
      icmpMessage_Marshal
        (mkMessage 128 0 0xBEEF (Some (mkEcho 0x1234 1 (Some [0xAB]))))
      = Ok [128; 0; 0; 0; 0x12; 0x34; 0; 1; 0xAB]
      /\ parseICMPMessage [128; 0; 0; 0; 0x12; 0x34; 0; 1; 0xAB] = Ok m'
      /\ Checksum m' = 0
      /\ Checksum m'
         <> Checksum (mkMessage 128 0 0xBEEF (Some (mkEcho 0x1234 1 (Some [0xAB])))))
  /\ (exists p' : icmpEcho,
         icmpMessage_Marshal
           (mkMessage 8 0 0 (Some (mkEcho 0x1234 1 (Some []))))
         = Ok [8; 0; 0xE5; 0xCA; 0x12; 0x34; 0; 1]
         /\ parseICMPMessage [8; 0; 0xE5; 0xCA; 0x12; 0x34; 0; 1]
            = Ok (mkMessage 8 0 0xE5CA (Some p'))
         /\ Data p' = None
         /\ Data p' <> Data (mkEcho 0x1234 1 (Some []))).
Proof.
  split.
  - eexists. split; [reflexivity |]. split; [reflexivity |].
    split; [reflexivity |]. cbn [Checksum]. discriminate.
  - eexists. split; [reflexivity |]. split; [reflexivity |].
    split; [reflexivity |]. cbn [Data]. discriminate.
Qed.

(** C2, amended: for a message of type 0, 8, 128 or 129 with a code in
    byte range and an echo body with identifier and sequence in 16-bit
    range, decoding the encoding succeeds and gives back the type, the
    code, the identifier, the sequence and the payload bytes (an empty
    payload comes back as the nil slice); for types 128 and 129 the
    decoded checksum is 0 whatever the message's [Checksum] field held. *)
Theorem marshal_parse_roundtrip :
  forall (m : icmpMessage) (p : icmpEcho),
    Body m = Some p ->
    isEchoType (Typ m) = true ->
    is_byte (Code m) ->
    is_u16 (ID p) -> is_u16 (Seq p) ->
    exists (b : list Z) (ck : Z),
      icmpMessage_Marshal m = Ok b
      /\ parseICMPMessage b
         = Ok (mkMessage (Typ m) (Code m) ck
                 (Some (mkEcho (ID p) (Seq p) (decoded_payload (Data p)))))
      /\ slice_elems (decoded_payload (Data p)) = slice_elems (Data p)
      /\ (isIPv6Echo (Typ m) = true -> ck = 0).
Proof.
  intros m p Hbody Hty Hcode Hid Hseq.
  assert (Ht : to_byte (Typ m) = Typ m).
  { destruct (isEchoType_cases _ Hty) as [-> | [-> | [-> | ->]]]; reflexivity. }
  rewrite icmpMessage_Marshal_eq, Ht, (to_byte_small _ Hcode), Hbody.
  assert (Hpay : slice_elems (decoded_payload (Data p)) = slice_elems (Data p)).
  { unfold decoded_payload. destruct (slice_elems (Data p)); reflexivity. }
  destruct (isIPv6Echo (Typ m)) eqn:H6.
  - exists (Typ m :: Code m :: 0 :: 0 :: body_bytes (Some p)), 0.
    split; [reflexivity |]. split; [| split; [exact Hpay | reflexivity]].
    apply parse_echo_message; assumption.
  - eexists. eexists.
    split; [reflexivity |]. split; [| split; [exact Hpay | discriminate]].
    apply parse_echo_message; assumption.
Qed.

Lemma marshal_parse_roundtrip_witness :
  is_byte 0 /\ is_u16 0x1234 /\ is_u16 1
  /\ exists (b : list Z) (ck : Z),
      icmpMessage_Marshal (mkMessage 8 0 0 (Some (mkEcho 0x1234 1 (Some [0xAB; 0xCD]))))
      = Ok b
      /\ parseICMPMessage b
         = Ok (mkMessage 8 0 ck
                 (Some (mkEcho 0x1234 1 (decoded_payload (Some [0xAB; 0xCD])))))
      /\ slice_elems (decoded_payload (Some [0xAB; 0xCD])) = slice_elems (Some [0xAB; 0xCD])
      /\ (isIPv6Echo 8 = true -> ck = 0).
Proof.
  split; [unfold is_byte; lia |].
  split; [unfold is_u16; lia |].
  split; [unfold is_u16; lia |].
  apply (marshal_parse_roundtrip
           (mkMessage 8 0 0 (Some (mkEcho 0x1234 1 (Some [0xAB; 0xCD]))))
           (mkEcho 0x1234 1 (Some [0xAB; 0xCD]))).
  - reflexivity.
  - reflexivity.
  - unfold is_byte; cbn [Code]; lia.
  - unfold is_u16; cbn [ID]; lia.
  - unfold is_u16; cbn [Seq]; lia.
Defined.

(** ** The receive loop *)

Lemma recvLoop_datagram (ip4 : bool) (rb pkt : list Z) (c : conn) :
  recvLoop ip4 (Datagram pkt :: c) rb
  = match recvStep ip4 rb pkt with
    | Ok (rb', m) => if isEchoRequest (Typ m) then recvLoop ip4 c rb' else Ok m
    | Err e => Err e
    | Panic => Panic
    end.
Proof. reflexivity. Qed.

Lemma recvLoop_skips (ip4 : bool) (rb rb' : list Z) (pre : list (list Z)) (c : conn) :
  skips ip4 rb pre rb' ->
  recvLoop ip4 (map Datagram pre ++ c) rb = recvLoop ip4 c rb'.
Proof.
  induction 1 as [rb | rb pkt rb1 m pkts rb' Hstep Hreq _ IH].
  - reflexivity.
  - cbn [map app]. rewrite recvLoop_datagram, Hstep, Hreq. exact IH.
Qed.

Lemma recvLoop_returned (ip4 : bool) (c : conn) :
  forall (rb : list Z) (m : icmpMessage),
    recvLoop ip4 c rb = Ok m ->
    exists (pre : list (list Z)) (pkt : list Z) (rest : conn) (rb' rb'' : list Z),
      c = map Datagram pre ++ Datagram pkt :: rest
      /\ skips ip4 rb pre rb'
      /\ recvStep ip4 rb' pkt = Ok (rb'', m)
      /\ isEchoRequest (Typ m) = false.
Proof.
  induction c as [| ev c IH]; intros rb m H.
  - discriminate H.
  - destruct ev as [e | pkt]; [discriminate H |].
    rewrite recvLoop_datagram in H.
    destruct (recvStep ip4 rb pkt) as [[rb1 m1] | e |] eqn:Hstep;
      try discriminate H.
    destruct (isEchoRequest (Typ m1)) eqn:Hreq.
    + destruct (IH _ _ H) as (pre & pkt' & rest & rb' & rb'' & -> & Hs & Hst & Hm).
      exists (pkt :: pre), pkt', rest, rb', rb''.
      repeat split; trivial.
      eapply skips_cons; eassumption.
    + injection H as <-.
      exists [], pkt, c, rb, rb1.
      repeat split; trivial. constructor.
Qed.

Lemma recvLoop_all_requests (ip4 : bool) (rb rb' : list Z) (pkts : list (list Z)) :
  skips ip4 rb pkts rb' -> recvLoop ip4 (map Datagram pkts) rb = Err errRead.
Proof.
  intros Hs. rewrite <- (app_nil_r (map Datagram pkts)).
  rewrite (recvLoop_skips _ _ _ _ _ Hs). reflexivity.
Qed.

(** *** A request followed by the reply that carries the caller's key *)

Lemma fill_prefix (rb pkt : list Z) :
  (length pkt <= length rb)%nat ->
  fill rb pkt = pkt ++ skipn (length pkt) rb.
Proof.
  intros H. unfold fill. rewrite firstn_all2 by exact H. reflexivity.
Qed.

Lemma skipn_length_app (a a' z : list Z) :
  length a = length a' -> skipn (length a) (a' ++ z) = z.
Proof.
  intros H. rewrite H, skipn_app, skipn_all, Nat.sub_diag. reflexivity.
Qed.

Lemma fill_fresh_buffer (pkt : list Z) (n : nat) :
  fill (repeat 0 (n + length pkt)) pkt = pkt ++ repeat 0 n.
Proof.
  rewrite fill_prefix by (rewrite repeat_length; lia).
  rewrite Nat.add_comm, repeat_app.
  rewrite skipn_length_app by (rewrite repeat_length; reflexivity).
  reflexivity.
Qed.

Lemma fill_same_length (pkt pkt' z : list Z) :
  length pkt = length pkt' -> fill (pkt' ++ z) pkt = pkt ++ z.
Proof.
  intros H.
  rewrite fill_prefix by (rewrite length_app; lia).
  rewrite skipn_length_app by exact H. reflexivity.
Qed.

Lemma parse_echo_padded (t c k0 k1 : Z) (p : icmpEcho) (pad : list Z) :
  isEchoType t = true ->
  is_u16 (ID p) -> is_u16 (Seq p) ->
  parseICMPMessage ((t :: c :: k0 :: k1 :: body_bytes (Some p)) ++ pad)
  = Ok (mkMessage t c (Z.lor (Z.shiftl k0 8) k1)
          (Some (mkEcho (ID p) (Seq p)
                   (decoded_payload (Some (slice_elems (Data p) ++ pad)))))).
Proof.
  intros Hty Hid Hseq. cbn [body_bytes app].
  rewrite parseICMPMessage_cons5, Hty, parseICMPEcho_cons4.
  cbn [bind]. rewrite !be16_roundtrip by assumption.
  unfold decoded_payload. cbn [slice_elems].
  destruct (slice_elems (Data p) ++ pad); reflexivity.
Qed.

Lemma echoMessage_wire (typ xid xseq : Z) (data : list Z) :
  isEchoType typ = true ->
  exists k0 k1 : Z,
    icmpMessage_Marshal (echoMessage typ xid xseq data)
    = Ok (typ :: 0 :: k0 :: k1
          :: body_bytes (Some (mkEcho xid xseq (Some data)))).
Proof.
  intros Hty.
  assert (Ht : to_byte typ = typ).
  { destruct (isEchoType_cases _ Hty) as [-> | [-> | [-> | ->]]]; reflexivity. }
  rewrite icmpMessage_Marshal_eq. unfold echoMessage. cbn [Typ Code Body].
  rewrite Ht. change (to_byte 0) with 0.
  destruct (isIPv6Echo typ); do 2 eexists; reflexivity.
Qed.

Lemma isEchoRequest_isEchoType (t : Z) :
  isEchoRequest t = true -> isEchoType t = true.
Proof.
  unfold isEchoRequest, isEchoType. intros H.
  apply orb_true_iff in H. destruct H as [H | H]; rewrite H;
    rewrite ?orb_true_r; reflexivity.
Qed.

Lemma recvStep_packet (rb pkt : list Z) :
  recvStep false rb pkt
  = m <- parseICMPMessage (fill rb pkt) ;; Ok (fill rb pkt, m).
Proof. reflexivity. Qed.

Lemma recvLoop_wire_request_then_reply
      (treq trep a0 a1 c0 c1 : Z) (p : icmpEcho) (rest : conn) :
  isEchoRequest treq = true ->
  isEchoType trep = true -> isEchoRequest trep = false ->
  is_u16 (ID p) -> is_u16 (Seq p) ->
  recvLoop false
    (Datagram (treq :: 0 :: a0 :: a1 :: body_bytes (Some p))
     :: Datagram (trep :: 0 :: c0 :: c1 :: body_bytes (Some p)) :: rest)
    (repeat 0 (20 + length (treq :: 0 :: a0 :: a1 :: body_bytes (Some p))))
  = Ok (mkMessage trep 0 (Z.lor (Z.shiftl c0 8) c1)
          (Some (mkEcho (ID p) (Seq p)
                   (Some (slice_elems (Data p) ++ repeat 0 20))))).
Proof.
  intros Hreq Hrep Hnot Hid Hseq.
  pose proof (isEchoRequest_isEchoType _ Hreq) as Hreq'.
  assert (Hpay : forall l, decoded_payload (Some (l ++ repeat 0 20))
                           = Some (l ++ repeat 0 20)).
  { intros l. unfold decoded_payload. cbn [slice_elems].
    destruct l; reflexivity. }
  rewrite recvLoop_datagram, recvStep_packet, fill_fresh_buffer.
  rewrite parse_echo_padded by assumption.
  cbv beta iota delta [bind Typ]. rewrite Hreq.
  rewrite recvLoop_datagram, recvStep_packet.
  rewrite fill_same_length by reflexivity.
  rewrite parse_echo_padded by assumption.
  cbv beta iota delta [bind Typ]. rewrite Hnot, Hpay. reflexivity.
Qed.

Lemma recvLoop_request_then_reply
      (treq trep xid xseq : Z) (data wb wr : list Z) (rest : conn) :
  isEchoRequest treq = true ->
  isEchoType trep = true -> isEchoRequest trep = false ->
  is_u16 xid -> is_u16 xseq ->
  icmpMessage_Marshal (echoMessage treq xid xseq data) = Ok wb ->
  icmpMessage_Marshal (echoMessage trep xid xseq data) = Ok wr ->
  exists ck : Z,
    recvLoop false (Datagram wb :: Datagram wr :: rest)
             (repeat 0 (20 + length wb))
    = Ok (mkMessage trep 0 ck
            (Some (mkEcho xid xseq (Some (data ++ repeat 0 20))))).
Proof.
  intros Hreq Hrep Hnot Hid Hseq Hwb Hwr.
  pose proof (isEchoRequest_isEchoType _ Hreq) as Hreq'.
  destruct (echoMessage_wire treq xid xseq data Hreq') as (a0 & a1 & Ea).
  destruct (echoMessage_wire trep xid xseq data Hrep) as (c0 & c1 & Ec).
  rewrite Ea in Hwb. injection Hwb as <-.
  rewrite Ec in Hwr. injection Hwr as <-.
  exists (Z.lor (Z.shiftl c0 8) c1).
  apply (recvLoop_wire_request_then_reply treq trep a0 a1 c0 c1
           (mkEcho xid xseq (Some data)) rest); assumption.
Qed.

(** The loop in terms of its own decodings: it goes on exactly while the
    message decoded from its buffer is an Echo Request (type 8 or 128) and
    returns the first one that is not, so a message it returns never has
    an Echo Request type.  Fed the encoded request and then the encoded
    reply for a key [(xid, xseq)], the loop of [TestPacketConnICMPEcho]
    returns the reply, whose body carries [xid] and [xseq]. *)
Lemma recvLoop_first_decoded_non_request :
  (forall (ip4 : bool) (rb rb' rb'' : list Z) (pre : list (list Z))
          (pkt : list Z) (rest : conn) (m : icmpMessage),
      skips ip4 rb pre rb' ->
      recvStep ip4 rb' pkt = Ok (rb'', m) ->
      isEchoRequest (Typ m) = false ->
      recvLoop ip4 (map Datagram pre ++ Datagram pkt :: rest) rb = Ok m)
  /\ (forall (ip4 : bool) (c : conn) (rb : list Z) (m : icmpMessage),
         recvLoop ip4 c rb = Ok m ->
         Typ m <> icmpv4EchoRequest /\ Typ m <> icmpv6EchoRequest
         /\ exists (pre : list (list Z)) (pkt : list Z) (rest : conn)
                   (rb' rb'' : list Z),
             c = map Datagram pre ++ Datagram pkt :: rest
             /\ skips ip4 rb pre rb'
             /\ recvStep ip4 rb' pkt = Ok (rb'', m))
  /\ (forall (treq trep xid xseq : Z) (data wb wr : list Z) (rest : conn),
         (treq = icmpv4EchoRequest /\ trep = icmpv4EchoReply
          \/ treq = icmpv6EchoRequest /\ trep = icmpv6EchoReply) ->
         is_u16 xid -> is_u16 xseq ->
         icmpMessage_Marshal (echoMessage treq xid xseq data) = Ok wb ->
         icmpMessage_Marshal (echoMessage trep xid xseq data) = Ok wr ->
         exists (m : icmpMessage) (d : option (list Z)),
           recvLoop false (Datagram wb :: Datagram wr :: rest)
                    (repeat 0 (20 + length wb)) = Ok m
           /\ Typ m = trep
           /\ Body m = Some (mkEcho xid xseq d)).
Proof.
  split; [| split].
  - intros ip4 rb rb' rb'' pre pkt rest m Hs Hstep Hm.
    rewrite (recvLoop_skips _ _ _ _ _ Hs), recvLoop_datagram, Hstep, Hm.
    reflexivity.
  - intros ip4 c rb m H.
    destruct (recvLoop_returned _ _ _ _ H)
      as (pre & pkt & rest & rb' & rb'' & Hc & Hs & Hstep & Hm).
    unfold isEchoRequest in Hm. apply orb_false_iff in Hm.
    destruct Hm as [H4 H6]. apply Z.eqb_neq in H4, H6.
    split; [exact H4 |]. split; [exact H6 |].
    exists pre, pkt, rest, rb', rb''. repeat split; assumption.
  - intros treq trep xid xseq data wb wr rest Hty Hid Hseq Hwb Hwr.
    destruct (recvLoop_request_then_reply treq trep xid xseq data wb wr rest)
      as [ck Hck]; trivial;
      try (destruct Hty as [[-> ->] | [-> ->]]; reflexivity).
    eexists; eexists. split; [exact Hck |]. split; reflexivity.
Qed.

(** The loop of [TestConnICMPEcho] on ["ip4"] with the payload of the
    tests: both datagrams arrive behind an IPv4 header, the buffer is
    rebound to the payload of the first, and the reply is still returned
    with the caller's key (its data cut by the shorter buffer). *)
Example recvLoop_ip4_gadget :
  forall wb wr : list Z,
    icmpMessage_Marshal (echoMessage icmpv4EchoRequest 0x1234 1 gadget3) = Ok wb ->
    icmpMessage_Marshal (echoMessage icmpv4EchoReply 0x1234 1 gadget3) = Ok wr ->
    recvLoop true [Datagram (ipv4Header ++ wb); Datagram (ipv4Header ++ wr)]
             (repeat 0 (20 + length wb))
    = Ok (mkMessage 0 0 65419
            (Some (mkEcho 0x1234 1 (Some (gadget ++ gadget))))).
Proof.
  intros wb wr Hwb Hwr.
  vm_compute in Hwb. injection Hwb as <-.
  vm_compute in Hwr. injection Hwr as <-.
  vm_compute. reflexivity.
Qed.

(** C8: the loop of [TestConnICMPEcho] on ["ip4"] does not return the
    first datagram that is not an Echo Request.  It rebinds its read
    buffer to [ipv4Payload(rb)], so the buffer loses 20 bytes at every
    datagram.  With the buffer and the payload of the tests (88 bytes),
    five datagrams that each decode, by themselves, as the Echo Request of
    a key make the loop return a message of type 0x45 without a body, made
    of the first bytes of the fifth IPv4 header; four of them followed by
    the Echo Reply of that key return the same message, not the reply.
    With an empty payload (a buffer of 28 bytes) the request followed at
    once by the reply loses the reply in the same way.  The loop of
    [TestPacketConnICMPEcho], which keeps its buffer, skips the five
    requests, ends in the read failure, and returns the reply. *)
Theorem conn_loop_returns_header_bytes :
  length (echoDatagram icmpv4EchoRequest 0x1234 1 gadget3) = 88%nat
  /\ decodeAlone true (echoDatagram icmpv4EchoRequest 0x1234 1 gadget3)
     = Ok (mkMessage icmpv4EchoRequest 0 63371
             (Some (mkEcho 0x1234 1 (Some gadget3))))
  /\ decodeAlone true (echoDatagram icmpv4EchoReply 0x1234 1 gadget3)
     = Ok (mkMessage icmpv4EchoReply 0 65419
             (Some (mkEcho 0x1234 1 (Some gadget3))))
  /\ (forall rest : conn,
         recvLoop true
           (repeat (Datagram (echoDatagram icmpv4EchoRequest 0x1234 1 gadget3)) 5
            ++ rest)
           (repeat 0 88)
         = Ok (mkMessage 0x45 0 0 None))
  /\ (forall rest : conn,
         recvLoop true
           (repeat (Datagram (echoDatagram icmpv4EchoRequest 0x1234 1 gadget3)) 4
            ++ Datagram (echoDatagram icmpv4EchoReply 0x1234 1 gadget3) :: rest)
           (repeat 0 88)
         = Ok (mkMessage 0x45 0 0 None))
  /\ decodeAlone true (echoDatagram icmpv4EchoRequest 0x1234 1 [])
     = Ok (mkMessage icmpv4EchoRequest 0 58826 (Some (mkEcho 0x1234 1 None)))
  /\ decodeAlone true (echoDatagram icmpv4EchoReply 0x1234 1 [])
     = Ok (mkMessage icmpv4EchoReply 0 60874 (Some (mkEcho 0x1234 1 None)))
  /\ (forall rest : conn,
         recvLoop true
           (Datagram (echoDatagram icmpv4EchoRequest 0x1234 1 [])
            :: Datagram (echoDatagram icmpv4EchoReply 0x1234 1 []) :: rest)
           (repeat 0 28)
         = Ok (mkMessage 0x45 0 0 None))
  /\ recvLoop false
       (repeat (Datagram (wire (echoMessage icmpv4EchoRequest 0x1234 1 gadget3))) 5)
       (repeat 0 88)
     = Err errRead
  /\ (forall rest : conn,
         recvLoop false
           (repeat (Datagram (wire (echoMessage icmpv4EchoRequest 0x1234 1 gadget3))) 4
            ++ Datagram (wire (echoMessage icmpv4EchoReply 0x1234 1 gadget3)) :: rest)
           (repeat 0 88)
         = Ok (mkMessage icmpv4EchoReply 0 65419
                 (Some (mkEcho 0x1234 1 (Some (gadget3 ++ repeat 0 20)))))).
Proof.
  repeat split; intros; vm_compute; reflexivity.
Qed.

(** ** The checksum *)

Lemma list_pair_ind (P : list Z -> Prop) :
  P [] -> (forall x, P [x]) ->
  (forall x y l, P l -> P (x :: y :: l)) ->
  forall l, P l.
Proof.
  intros H0 H1 H2.
  fix IH 1. intros [| x [| y l]].
  - exact H0.
  - apply H1.
  - apply H2, IH.
Qed.

Lemma csum_eq (b : list Z) : csum b = csum_fold (csum_acc b).
Proof. reflexivity. Qed.

Lemma land1_even (k : Z) : Z.land (2 * k) 1 = 0.
Proof.
  change 1 with (Z.ones 1). rewrite Z.land_ones by lia.
  change (2 ^ 1) with 2. rewrite Z.mul_comm. apply Z.mod_mul. lia.
Qed.

Lemma land1_odd (k : Z) : Z.land (2 * k - 1) 1 = 1.
Proof.
  change 1 with (Z.ones 1) at 2. rewrite Z.land_ones by lia.
  change (2 ^ 1) with 2.
  replace (2 * k - 1) with (1 + (k - 1) * 2) by lia.
  rewrite Z.mod_add by lia. reflexivity.
Qed.

(** The indexed loop of the source, started at an even offset [len(pre)],
    followed by the trailing-byte step, is the pairwise recursion on what
    lies behind the offset. *)
Lemma csum_loop_wsum32 :
  forall (suf pre : list Z) (s : Z) (fuel k : nat),
    (length suf <= fuel)%nat ->
    length pre = (2 * k)%nat ->
    (let b := pre ++ suf in
     let csumcv := Z.of_nat (length b) - 1 in
     let s' := csum_loop fuel b csumcv (Z.of_nat (length pre)) s in
     if Z.land csumcv 1 =? 0 then u32 (s' + nth (Z.to_nat csumcv) b 0) else s')
    = wsum32 suf s.
Proof.
  induction suf as [| x | x y l IH] using list_pair_ind;
    intros pre s fuel k Hfuel Hpre; cbv zeta.
  - rewrite app_nil_r.
    replace (Z.of_nat (length pre) - 1) with (2 * Z.of_nat k - 1) by lia.
    rewrite land1_odd. cbn [Z.eqb wsum32].
    destruct fuel as [| fuel]; [reflexivity |]. cbn [csum_loop].
    destruct (Z.ltb_spec (Z.of_nat (length pre)) (2 * Z.of_nat k - 1)); [lia |].
    reflexivity.
  - rewrite length_app. cbn [length wsum32].
    replace (Z.of_nat (length pre + 1) - 1) with (2 * Z.of_nat k) by lia.
    rewrite land1_even. cbn [Z.eqb].
    replace (Z.to_nat (2 * Z.of_nat k)) with (length pre) by lia.
    rewrite nth_middle.
    destruct fuel as [| fuel]; [reflexivity |]. cbn [csum_loop].
    destruct (Z.ltb_spec (Z.of_nat (length pre)) (2 * Z.of_nat k)); [lia |].
    reflexivity.
  - destruct fuel as [| fuel]; [cbn [length] in Hfuel; lia |].
    cbn [csum_loop wsum32].
    destruct (Z.ltb_spec (Z.of_nat (length pre))
                (Z.of_nat (length (pre ++ x :: y :: l)) - 1)) as [_ | H];
      [| rewrite length_app in H; cbn [length] in H; lia].
    replace (Z.to_nat (Z.of_nat (length pre))) with (length pre) by lia.
    replace (Z.to_nat (Z.of_nat (length pre) + 1)) with (S (length pre)) by lia.
    rewrite nth_middle.
    replace (nth (S (length pre)) (pre ++ x :: y :: l) 0) with y.
    2:{ change (pre ++ x :: y :: l) with (pre ++ [x] ++ y :: l).
        rewrite app_assoc.
        replace (S (length pre)) with (length (pre ++ [x]))
          by (rewrite length_app; cbn [length]; lia).
        rewrite nth_middle. reflexivity. }
    specialize (IH (pre ++ [x; y]) (u32 (s + Z.lor (Z.shiftl y 8) x)) fuel (S k)).
    cbv zeta in IH.
    replace ((pre ++ [x; y]) ++ l) with (pre ++ x :: y :: l) in IH
      by (rewrite <- app_assoc; reflexivity).
    replace (Z.of_nat (length (pre ++ [x; y]))) with (Z.of_nat (length pre) + 2) in IH
      by (rewrite length_app; cbn [length]; lia).
    apply IH.
    + cbn [length] in Hfuel. lia.
    + rewrite length_app. cbn [length]. lia.
Qed.

Lemma csum_acc_wsum32 (b : list Z) : csum_acc b = wsum32 b 0.
Proof.
  exact (csum_loop_wsum32 b [] 0 (length b) 0 (Nat.le_refl _) eq_refl).
Qed.

Lemma u32_range (x : Z) : 0 <= u32 x < 2 ^ 32.
Proof. unfold u32. apply Z.mod_pos_bound. lia. Qed.

Lemma u32_small (x : Z) : 0 <= x < 2 ^ 32 -> u32 x = x.
Proof. unfold u32. apply Z.mod_small. Qed.

Lemma wsum32_le_word_sum :
  forall (b : list Z) (s : Z),
    Forall is_byte b -> 0 <= s < 2 ^ 32 ->
    wsum32 b s = u32 (s + le_word_sum b).
Proof.
  induction b as [| x | x y l IH] using list_pair_ind; intros s Hb Hs.
  - cbn [wsum32 le_word_sum]. rewrite Z.add_0_r, u32_small; trivial.
  - reflexivity.
  - inversion Hb as [| ? ? Hx Hb1]; subst.
    inversion Hb1 as [| ? ? Hy Hl]; subst.
    cbn [wsum32 le_word_sum].
    rewrite IH by (trivial; apply u32_range).
    rewrite lor_shiftl8 by exact Hx.
    unfold u32. rewrite Z.add_mod_idemp_l by lia.
    f_equal. lia.
Qed.

Lemma csum_acc_le_word_sum (b : list Z) :
  Forall is_byte b -> csum_acc b = u32 (le_word_sum b).
Proof.
  intros Hb. rewrite csum_acc_wsum32, wsum32_le_word_sum; trivial.
  lia.
Qed.

Lemma le_word_sum_bounds (b : list Z) :
  Forall is_byte b ->
  0 <= le_word_sum b /\ 2 * le_word_sum b <= 65535 * Z.of_nat (length b).
Proof.
  induction b as [| x | x y l IH] using list_pair_ind; intros Hb.
  - cbn. lia.
  - inversion Hb as [| ? ? Hx _]; subst. unfold is_byte in Hx.
    cbn [le_word_sum length]. lia.
  - inversion Hb as [| ? ? Hx Hb1]; subst.
    inversion Hb1 as [| ? ? Hy Hl]; subst.
    unfold is_byte in Hx, Hy. specialize (IH Hl).
    cbn [le_word_sum length]. lia.
Qed.

Lemma land_ffff (s : Z) : Z.land s 0xffff = s mod 65536.
Proof. change 0xffff with (Z.ones 16). rewrite Z.land_ones by lia. reflexivity. Qed.

(** The two folds leave, in the low 16 bits, the residue of the
    accumulator modulo 65535, zero only for a zero accumulator. *)
Lemma csum_fold_spec (s : Z) :
  0 <= s < 2 ^ 32 ->
  0 <= csum_fold s < 2 ^ 32
  /\ exists q : Z,
      0 <= q
      /\ s = csum_fold s mod 65536 + 65535 * q
      /\ (csum_fold s mod 65536 = 0 -> s = 0).
Proof.
  intros Hs. split; [apply u32_range |].
  unfold csum_fold.
  rewrite land_ffff, !Z.shiftr_div_pow2 by lia.
  change (2 ^ 16) with 65536 in *. change (2 ^ 32) with 4294967296 in *.
  set (hi := s / 65536). set (lo := s mod 65536).
  assert (Hhl : s = 65536 * hi + lo) by (apply Z.div_mod; lia).
  assert (Hlo : 0 <= lo < 65536) by (apply Z.mod_pos_bound; lia).
  assert (Hhi : 0 <= hi < 65536).
  { split; [apply Z.div_pos; lia | apply Z.div_lt_upper_bound; lia]. }
  rewrite (u32_small (hi + lo)) by (change (2 ^ 32) with 4294967296; lia).
  set (h1 := (hi + lo) / 65536).
  assert (Hh1 : hi + lo = 65536 * h1 + (hi + lo) mod 65536)
    by (apply Z.div_mod; lia).
  assert (Hl1 : 0 <= (hi + lo) mod 65536 < 65536)
    by (apply Z.mod_pos_bound; lia).
  assert (Hh1r : h1 = 0 \/ h1 = 1) by lia.
  rewrite (u32_small (hi + lo + h1)) by (change (2 ^ 32) with 4294967296; lia).
  destruct Hh1r as [E | E]; rewrite E in *.
  - rewrite Z.add_0_r, Z.mod_small by lia.
    exists hi. lia.
  - replace (hi + lo + 1) with ((hi + lo - 65535) + 1 * 65536) by lia.
    rewrite Z.mod_add, Z.mod_small by lia.
    exists (hi + 1). lia.
Qed.

(** The two bytes XOR-ed into the header, read as a little-endian word,
    are the complement of the low 16 bits of the folded sum. *)
Lemma checksum_word (s : Z) :
  0 <= s < 2 ^ 32 ->
  is_byte (to_byte (u32 (Z.lnot s)))
  /\ is_byte (to_byte (Z.shiftr (u32 (Z.lnot s)) 8))
  /\ to_byte (u32 (Z.lnot s)) + 256 * to_byte (Z.shiftr (u32 (Z.lnot s)) 8)
     = 65535 - s mod 65536.
Proof.
  intros Hs. split; [apply to_byte_is_byte |]. split; [apply to_byte_is_byte |].
  assert (Hc : u32 (Z.lnot s) = 4294967295 - s).
  { unfold u32, Z.lnot. change (2 ^ 32) with 4294967296 in *.
    replace (Z.pred (- s)) with ((4294967295 - s) + (-1) * 4294967296)
      by lia.
    rewrite Z.mod_add, Z.mod_small; lia. }
  rewrite Hc, Z.shiftr_div_pow2 by lia. unfold to_byte.
  change (2 ^ 8) with 256. change (2 ^ 32) with 4294967296 in *.
  Z.div_mod_to_equations. lia.
Qed.

(** *** The sum over the encoded message *)

Section Checksummed.

Variables (t c : Z) (rest : list Z).
Hypothesis Ht : is_byte t.
Hypothesis Hc : is_byte c.
Hypothesis Hrest : Forall is_byte rest.

Let raw : list Z := t :: c :: 0 :: 0 :: rest.
Let k0 : Z := to_byte (u32 (Z.lnot (csum raw))).
Let k1 : Z := to_byte (Z.shiftr (u32 (Z.lnot (csum raw))) 8).
Let out : list Z := t :: c :: k0 :: k1 :: rest.

Lemma raw_is_bytes : Forall is_byte raw.
Proof.
  assert (H0 : is_byte 0) by (unfold is_byte; lia).
  unfold raw. auto using Forall_cons.
Qed.

Lemma out_is_bytes : Forall is_byte out.
Proof.
  unfold out, k0, k1.
  repeat (apply Forall_cons; [first [assumption | apply to_byte_is_byte] |]).
  exact Hrest.
Qed.

Lemma csum_range : 0 <= csum raw < 2 ^ 32.
Proof. apply u32_range. Qed.

Lemma le_word_sum_out :
  le_word_sum out = le_word_sum raw + (65535 - csum raw mod 65536).
Proof.
  destruct (checksum_word (csum raw) csum_range) as (_ & _ & Hw).
  fold k0 k1 in Hw. unfold out.
  change (le_word_sum raw) with (le_word_sum (t :: c :: 0 :: 0 :: rest)).
  cbn [le_word_sum]. lia.
Qed.

(** With the checksum in place the wrapped sum is a positive multiple of
    65535 that fits 32 bits. *)
Lemma wrapped_sum_out :
  exists q : Z,
    0 <= q /\ 65535 * (q + 1) < 2 ^ 32
    /\ u32 (le_word_sum out) = 65535 * (q + 1)
    /\ u32 (le_word_sum raw) + (65535 - csum raw mod 65536) = 65535 * (q + 1).
Proof.
  rewrite le_word_sum_out.
  pose proof (u32_range (le_word_sum raw)) as Hw.
  destruct (csum_fold_spec _ Hw) as (_ & q & Hq & Hsum & Hzero).
  rewrite <- csum_acc_le_word_sum, <- csum_eq in Hsum, Hzero
    by exact raw_is_bytes.
  rewrite <- csum_acc_le_word_sum in Hw by exact raw_is_bytes.
  assert (Hf : 0 <= csum raw mod 65536 < 65536)
    by (apply Z.mod_pos_bound; lia).
  change (2 ^ 32) with 4294967296 in *.
  assert (Hfit : 65535 * (q + 1) < 4294967296).
  { destruct (Z.eq_dec (csum raw mod 65536) 0) as [E | E].
    - specialize (Hzero E). lia.
    - lia. }
  exists q. split; [exact Hq |]. split; [exact Hfit |].
  assert (Hw' : u32 (le_word_sum raw) + (65535 - csum raw mod 65536)
                = 65535 * (q + 1)).
  { rewrite <- csum_acc_le_word_sum by exact raw_is_bytes. lia. }
  split; [| exact Hw'].
  unfold u32 in *. rewrite <- Z.add_mod_idemp_l by lia.
  rewrite Hw'. apply Z.mod_small.
  change (2 ^ 32) with 4294967296. lia.
Qed.

(** Running the routine of [Marshal] again over its output leaves
    0xFFFF in the low 16 bits, whatever the length. *)
Lemma csum_out : csum out mod 65536 = 65535.
Proof.
  destruct wrapped_sum_out as (q & Hq & Hfit & Hout & _).
  rewrite csum_eq, csum_acc_le_word_sum, Hout by exact out_is_bytes.
  assert (Hr : 0 <= 65535 * (q + 1) < 2 ^ 32) by lia.
  destruct (csum_fold_spec _ Hr) as (_ & q' & Hq' & Hsum & Hzero).
  assert (Hf : 0 <= csum_fold (65535 * (q + 1)) mod 65536 < 65536)
    by (apply Z.mod_pos_bound; lia).
  destruct (Z.eq_dec (csum_fold (65535 * (q + 1)) mod 65536) 0) as [E | E].
  - specialize (Hzero E). lia.
  - lia.
Qed.

(** Without wrap-around in the accumulator the sum itself is a positive
    multiple of 65535. *)
Lemma le_word_sum_out_no_wrap :
  le_word_sum raw < 2 ^ 32 ->
  exists q : Z, 0 <= q /\ le_word_sum out = 65535 * (q + 1).
Proof.
  intros Hfit.
  destruct wrapped_sum_out as (q & Hq & _ & _ & Hw).
  destruct (le_word_sum_bounds raw raw_is_bytes) as [H0 _].
  rewrite u32_small in Hw by lia.
  exists q. split; [exact Hq |]. rewrite le_word_sum_out. exact Hw.
Qed.

End Checksummed.

(** *** The one's-complement sum of RFC 1071 *)

Lemma onec_add16_spec (a w : Z) :
  0 <= a <= 65535 -> is_u16 w ->
  0 <= onec_add16 a w <= 65535
  /\ (onec_add16 a w = a + w \/ onec_add16 a w = a + w - 65535)
  /\ (onec_add16 a w = 0 -> a + w = 0).
Proof.
  unfold is_u16, onec_add16. intros Ha Hw. cbv zeta.
  rewrite land_ffff, Z.shiftr_div_pow2 by lia.
  change (2 ^ 16) with 65536.
  Z.div_mod_to_equations. lia.
Qed.

Lemma onec_fold_spec :
  forall (ws : list Z) (a : Z),
    Forall is_u16 ws -> 0 <= a <= 65535 ->
    0 <= fold_left onec_add16 ws a <= 65535
    /\ (exists q : Z,
           a + fold_right Z.add 0 ws = fold_left onec_add16 ws a + 65535 * q)
    /\ (fold_left onec_add16 ws a = 0 -> a + fold_right Z.add 0 ws = 0).
Proof.
  induction ws as [| w ws IH]; intros a Hws Ha.
  - cbn [fold_left fold_right]. split; [exact Ha |].
    split; [exists 0; lia | lia].
  - inversion Hws as [| ? ? Hw Hws']; subst.
    destruct (onec_add16_spec a w Ha Hw) as (Hr & Hstep & Hz).
    destruct (IH (onec_add16 a w) Hws' Hr) as (Hr' & (q & Hq) & Hz').
    cbn [fold_left fold_right]. split; [exact Hr' |]. split.
    + destruct Hstep as [E | E]; [exists q | exists (q + 1)]; lia.
    + intros E0. specialize (Hz' E0).
      assert (Hs : 0 <= fold_right Z.add 0 ws).
      { clear - Hws'. induction Hws' as [| x l Hx _ IHl]; cbn [fold_right];
          [lia | unfold is_u16 in Hx; lia]. }
      assert (onec_add16 a w = 0) by lia.
      specialize (Hz H). lia.
Qed.

(** Big-endian and little-endian words give sums that agree modulo 65535
    up to the factor 256. *)
Lemma be_word_sum_le_word_sum (b : list Z) :
  Forall is_byte b ->
  Forall is_u16 (be_words b)
  /\ 0 <= be_word_sum b
  /\ (be_word_sum b = 0 -> le_word_sum b = 0)
  /\ exists K : Z, 256 * le_word_sum b = be_word_sum b + 65535 * K.
Proof.
  unfold be_word_sum.
  induction b as [| x | x y l IH] using list_pair_ind; intros Hb.
  - cbn. repeat split; try lia; try constructor. exists 0; lia.
  - inversion Hb as [| ? ? Hx _]; subst. unfold is_byte in Hx.
    cbn [be_words le_word_sum fold_right].
    rewrite Z.shiftl_mul_pow2 by lia. change (2 ^ 8) with 256.
    split; [repeat constructor; unfold is_u16; lia |].
    split; [lia |]. split; [lia |]. exists 0; lia.
  - inversion Hb as [| ? ? Hx Hb1]; subst.
    inversion Hb1 as [| ? ? Hy Hl]; subst.
    destruct (IH Hl) as (Hw & H0 & Hz & K & HK).
    cbn [be_words le_word_sum fold_right].
    rewrite lor_shiftl8 by exact Hy.
    unfold is_byte in Hx, Hy.
    split; [constructor; [unfold is_u16; lia | exact Hw] |].
    split; [lia |]. split; [lia |].
    exists (K + y). lia.
Qed.

(** A message whose little-endian word sum is a positive multiple of 65535
    has the one's-complement sum 0xFFFF. *)
Lemma onec_sum16_of_multiple (b : list Z) (q : Z) :
  Forall is_byte b ->
  0 <= q -> le_word_sum b = 65535 * (q + 1) ->
  onec_sum16 b = 0xFFFF.
Proof.
  intros Hb Hq Hsum.
  destruct (be_word_sum_le_word_sum b Hb) as (Hw & H0 & Hz & K & HK).
  unfold be_word_sum in *.
  destruct (onec_fold_spec (be_words b) 0 Hw ltac:(lia)) as (Hr & (q' & Hq') & Hr0).
  unfold onec_sum16.
  destruct (Z.eq_dec (fold_left onec_add16 (be_words b) 0) 0) as [E | E].
  - specialize (Hr0 E). lia.
  - lia.
Qed.

(** *** Self-verification of the encoder's checksum *)

Lemma slice_len_elems (d : option (list Z)) :
  slice_len d = Z.of_nat (length (slice_elems d)).
Proof. destruct d; reflexivity. Qed.

Lemma body_bytes_are_bytes (p : icmpEcho) :
  Forall is_byte (slice_elems (Data p)) ->
  Forall is_byte (body_bytes (Some p)).
Proof.
  intros H. cbn [body_bytes].
  repeat (apply Forall_cons; [apply to_byte_is_byte |]). exact H.
Qed.

Lemma long_payload_is_bytes (n : nat) : Forall is_byte (long_payload n).
Proof.
  induction n as [| n IH]; cbn [long_payload].
  - constructor.
  - repeat (apply Forall_cons; [unfold is_byte; lia |]). exact IH.
Qed.

Lemma long_payload_length (n : nat) :
  Z.of_nat (length (long_payload n)) = 2 * Z.of_nat n.
Proof.
  induction n as [| n IH]; cbn [long_payload length]; lia.
Qed.

Lemma long_payload_le_word_sum (n : nat) :
  le_word_sum (long_payload n) = 65535 * Z.of_nat n.
Proof.
  induction n as [| n IH]; cbn [long_payload le_word_sum]; lia.
Qed.

Lemma long_payload_onec_fold (n : nat) (a : Z) :
  1 <= a <= 65535 ->
  fold_left onec_add16 (be_words (long_payload n)) a = a.
Proof.
  revert a. induction n as [| n IH]; intros a Ha; cbn [long_payload be_words fold_left].
  - reflexivity.
  - change (Z.lor (Z.shiftl 255 8) 255) with 65535.
    assert (Hw : is_u16 65535) by (unfold is_u16; lia).
    destruct (onec_add16_spec a 65535 ltac:(lia) Hw) as (Hr & Hstep & _).
    replace (onec_add16 a 65535) with a by lia.
    apply IH. exact Ha.
Qed.

Lemma long_request_encoding (n : nat) :
  Z.of_nat n = 65535 ->
  icmpMessage_Marshal (long_request n)
  = Ok (8 :: 0 :: 0xF8 :: 0xFF :: 255 :: 255 :: 255 :: 255 :: long_payload n)
  /\ onec_sum16 (8 :: 0 :: 0xF8 :: 0xFF :: 255 :: 255 :: 255 :: 255 :: long_payload n)
     = 0x0100.
Proof.
  intros Hn. split.
  - rewrite icmpMessage_Marshal_eq. unfold long_request. cbn [Typ Code Body].
    change (isIPv6Echo icmpv4EchoRequest) with false. cbv iota.
    change (body_bytes (Some (mkEcho 0xFFFF 0xFFFF (Some (long_payload n)))))
      with (255 :: 255 :: 255 :: 255 :: long_payload n).
    change (to_byte icmpv4EchoRequest) with 8. change (to_byte 0) with 0.
    assert (Hcs : csum (8 :: 0 :: 0 :: 0 :: 255 :: 255 :: 255 :: 255 :: long_payload n) = 7).
    { rewrite csum_eq, csum_acc_le_word_sum.
      - cbn [le_word_sum]. rewrite long_payload_le_word_sum, Hn. reflexivity.
      - repeat (apply Forall_cons; [unfold is_byte; lia |]).
        apply long_payload_is_bytes. }
    rewrite Hcs. reflexivity.
  - unfold onec_sum16. cbn [be_words fold_left].
    change (onec_add16
              (onec_add16
                 (onec_add16 (onec_add16 0 (Z.lor (Z.shiftl 8 8) 0))
                    (Z.lor (Z.shiftl 248 8) 255))
                 (Z.lor (Z.shiftl 255 8) 255))
              (Z.lor (Z.shiftl 255 8) 255)) with 256.
    apply long_payload_onec_fold. lia.
Qed.

(** C10, as stated, fails: the echo request with identifier and sequence
    0xFFFF and 131070 payload bytes 0xFF is encoded with checksum bytes
    F8 FF, and the one's-complement sum over the 131078 bytes of the
    output is 0x0100, not 0xFFFF. *)
Lemma long_request_does_not_verify :
  exists b : list Z,
    Typ (long_request (Z.to_nat 65535)) = icmpv4EchoRequest
    /\ Forall is_byte (long_payload (Z.to_nat 65535))
    /\ icmpMessage_Marshal (long_request (Z.to_nat 65535)) = Ok b
    /\ Z.of_nat (length b) = 131078
    /\ nth 2 b 0 = 0xF8 /\ nth 3 b 0 = 0xFF
    /\ onec_sum16 b = 0x0100
    /\ onec_sum16 b <> 0xFFFF.
Proof.
  destruct (long_request_encoding (Z.to_nat 65535)) as [Henc Hsum].
  { apply Z2Nat.id. lia. }
  eexists. split; [reflexivity |].
  split; [apply long_payload_is_bytes |].
  split; [exact Henc |].
  split.
  { cbn [length]. rewrite !Nat2Z.inj_succ, long_payload_length, Z2Nat.id; lia. }
  split; [reflexivity |]. split; [reflexivity |].
  split; [exact Hsum |].
  rewrite Hsum. discriminate.
Qed.

(** C10, amended: for a message of any type other than 128 and 129 with an
    echo body whose payload holds bytes, running the checksum routine of
    [Marshal] again over the encoded message leaves 0xFFFF in its low 16
    bits (the recomputed checksum bytes are 0 0), whatever the length; and
    when the payload has at most 131068 bytes, so that the 32-bit
    accumulator cannot wrap, the one's-complement sum of the big-endian
    16-bit words of the encoded message, checksum bytes included, is
    0xFFFF. *)
Theorem marshal_checksum_verifies :
  forall (m : icmpMessage) (p : icmpEcho),
    Body m = Some p ->
    isIPv6Echo (Typ m) = false ->
    Forall is_byte (slice_elems (Data p)) ->
    exists b : list Z,
      icmpMessage_Marshal m = Ok b
      /\ Z.land (csum b) 0xffff = 0xFFFF
      /\ to_byte (u32 (Z.lnot (csum b))) = 0
      /\ to_byte (Z.shiftr (u32 (Z.lnot (csum b))) 8) = 0
      /\ (slice_len (Data p) <= 131068 -> onec_sum16 b = 0xFFFF).
Proof.
  intros m p Hbody H6 Hdata.
  rewrite icmpMessage_Marshal_eq, H6, Hbody. cbv zeta iota.
  pose proof (to_byte_is_byte (Typ m)) as Ht.
  pose proof (to_byte_is_byte (Code m)) as Hc.
  pose proof (body_bytes_are_bytes p Hdata) as Hrest.
  pose proof (csum_out _ _ _ Ht Hc Hrest) as Hcs. cbv zeta in Hcs.
  eexists. split; [reflexivity |].
  assert (Hland : Z.land
                    (csum (to_byte (Typ m) :: to_byte (Code m)
                           :: to_byte (u32 (Z.lnot (csum (to_byte (Typ m) :: to_byte (Code m) :: 0 :: 0 :: body_bytes (Some p)))))
                           :: to_byte (Z.shiftr (u32 (Z.lnot (csum (to_byte (Typ m) :: to_byte (Code m) :: 0 :: 0 :: body_bytes (Some p))))) 8)
                           :: body_bytes (Some p))) 0xffff = 0xFFFF).
  { rewrite land_ffff. exact Hcs. }
  split; [exact Hland |].
  match goal with |- to_byte (u32 (Z.lnot (csum ?b))) = 0 /\ _ =>
    set (out := b) in *
  end.
  assert (Hrange : 0 <= csum out < 2 ^ 32) by apply u32_range.
  destruct (checksum_word (csum out) Hrange) as (Hb0 & Hb1 & Hw).
  rewrite Hcs in Hw. unfold is_byte in Hb0, Hb1.
  split; [lia |]. split; [lia |].
  intros Hlen.
  destruct (le_word_sum_out_no_wrap _ _ _ Ht Hc Hrest) as (q & Hq & Hsum).
  - destruct (le_word_sum_bounds _ Hrest) as [_ Hbound].
    cbn [le_word_sum].
    assert (Hl : Z.of_nat (length (body_bytes (Some p))) <= 131072).
    { cbn [body_bytes length]. rewrite slice_len_elems in Hlen. lia. }
    unfold is_byte in Ht, Hc. change (2 ^ 32) with 4294967296. lia.
  - apply (onec_sum16_of_multiple out q); trivial.
    apply out_is_bytes; assumption.
Qed.

Lemma marshal_checksum_verifies_witness :
  Forall is_byte [0xAB; 0xCD; 0xEF]
  /\ slice_len (Some [0xAB; 0xCD; 0xEF]) <= 131068
  /\ icmpMessage_Marshal
       (mkMessage 8 0 0 (Some (mkEcho 0x1234 1 (Some [0xAB; 0xCD; 0xEF]))))
     = Ok [8; 0; 0x4A; 0xFC; 0x12; 0x34; 0; 1; 0xAB; 0xCD; 0xEF]
  /\ Z.land (csum [8; 0; 0x4A; 0xFC; 0x12; 0x34; 0; 1; 0xAB; 0xCD; 0xEF]) 0xffff
     = 0xFFFF
  /\ onec_sum16 [8; 0; 0x4A; 0xFC; 0x12; 0x34; 0; 1; 0xAB; 0xCD; 0xEF] = 0xFFFF.
Proof.
  assert (Hd : Forall is_byte [0xAB; 0xCD; 0xEF])
    by (repeat constructor; unfold is_byte; lia).
  assert (Hl : slice_len (Some [0xAB; 0xCD; 0xEF]) <= 131068)
    by (cbn [slice_len length]; lia).
  split; [exact Hd |]. split; [exact Hl |].
  destruct (marshal_checksum_verifies
              (mkMessage 8 0 0 (Some (mkEcho 0x1234 1 (Some [0xAB; 0xCD; 0xEF]))))
              (mkEcho 0x1234 1 (Some [0xAB; 0xCD; 0xEF]))
              eq_refl eq_refl Hd)
    as (b & Hb & Hland & _ & _ & Hsum).
  assert (Eb : b = [8; 0; 0x4A; 0xFC; 0x12; 0x34; 0; 1; 0xAB; 0xCD; 0xEF]).
  { vm_compute in Hb. injection Hb as <-. reflexivity. }
  subst b.
  split; [reflexivity |]. split; [exact Hland |]. exact (Hsum Hl).
Defined.

(** * Further properties of the codec *)

(** ** Outcomes of the decoder *)

Lemma parseICMPMessage_outcomes :
  forall b : list Z,
    (parseICMPMessage b = Err errTooShort <-> (length b < 4)%nat)
    /\ (parseICMPMessage b = Panic
        <-> (5 <= length b <= 7)%nat /\ isEchoType (nth 0 b 0) = true)
    /\ ((exists m, parseICMPMessage b = Ok m)
        <-> (4 <= length b)%nat
            /\ ((8 <= length b)%nat \/ length b = 4%nat
                \/ isEchoType (nth 0 b 0) = false))
    /\ (forall e, parseICMPMessage b = Err e -> e = errTooShort).
Proof.
  intros b.
  assert (Hcase : forall r : result icmpMessage,
             parseICMPMessage b = r ->
             (r = Err errTooShort /\ (length b < 4)%nat)
             \/ (r = Panic /\ (5 <= length b <= 7)%nat
                 /\ isEchoType (nth 0 b 0) = true)
             \/ ((exists m, r = Ok m) /\ (4 <= length b)%nat
                 /\ ((8 <= length b)%nat \/ length b = 4%nat
                     \/ isEchoType (nth 0 b 0) = false))).
  { intros r <-.
    destruct (Nat.lt_ge_cases (length b) 4) as [Hshort | Hlong].
    { left. split; [apply parseICMPMessage_short; exact Hshort | exact Hshort]. }
    right.
    destruct b as [| t [| c [| k0 [| k1 rest]]]];
      try (cbn [length] in Hlong; lia).
    destruct rest as [| x rest].
    { right. rewrite parseICMPMessage_header. cbn [length].
      split; [eauto | split; [lia | right; left; reflexivity]]. }
    rewrite parseICMPMessage_cons5. cbn [length nth].
    destruct (isEchoType t) eqn:Hty.
    - destruct (Nat.lt_ge_cases (length (x :: rest)) 4) as [Htr | Hfull].
      + left. rewrite parseICMPEcho_truncated by exact Htr.
        cbn [length] in Htr. split; [reflexivity | split; [lia | reflexivity]].
      + right. destruct rest as [| y [| z [| w rest]]];
          try (cbn [length] in Hfull; lia).
        rewrite parseICMPEcho_cons4. cbn [bind length].
        split; [eauto | split; [lia | left; lia]].
    - right. split; [eauto | split; [lia | right; right; reflexivity]]. }
  destruct (Hcase _ eq_refl) as [[Hr Hl] | [[Hr [Hl Hty]] | [[m Hr] [Hl Hd]]]];
    rewrite Hr.
  - split; [tauto |].
    split; [split; [discriminate | lia] |].
    split; [split; [intros [m Hm]; discriminate Hm | lia] |].
    intros e He. injection He as <-. reflexivity.
  - split; [split; [discriminate | lia] |].
    split; [tauto |].
    split; [split; [intros [m Hm]; discriminate Hm |] |].
    + intros [_ [H | [H | H]]]; [lia | lia | congruence].
    + intros e He. discriminate He.
  - split; [split; [discriminate | lia] |].
    split; [split; [discriminate |] |].
    + intros [H1 H2]. destruct Hd as [H | [H | H]]; [lia | lia | congruence].
    + split; [split; [tauto | eauto] |].
      intros e He. discriminate He.
Qed.

(** X1: [parseICMPMessage] fails with ["message too short"] exactly below
    four bytes, panics exactly on 5 to 7 bytes of a recognized echo type,
    and returns a message on every other input; it has no other error. *)
Theorem parse_outcomes :
  forall b : list Z,
    (parseICMPMessage b = Err errTooShort <-> (length b < 4)%nat)
    /\ (parseICMPMessage b = Panic
        <-> (5 <= length b <= 7)%nat /\ isEchoType (nth 0 b 0) = true)
    /\ ((exists m, parseICMPMessage b = Ok m)
        <-> (4 <= length b)%nat
            /\ ((8 <= length b)%nat \/ length b = 4%nat
                \/ isEchoType (nth 0 b 0) = false))
    /\ (forall e, parseICMPMessage b = Err e -> e = errTooShort).
Proof. exact parseICMPMessage_outcomes. Qed.

(** ** Bytes and 16-bit fields *)

Lemma to_byte_idem (x : Z) : to_byte (to_byte x) = to_byte x.
Proof. apply to_byte_small, to_byte_is_byte. Qed.

Lemma be16_truncates (v : Z) :
  Z.lor (Z.shiftl (to_byte (Z.shiftr v 8)) 8) (to_byte v) = v mod 65536.
Proof.
  rewrite lor_shiftl8 by apply to_byte_is_byte.
  unfold to_byte. rewrite Z.shiftr_div_pow2 by lia.
  change (2 ^ 8) with 256.
  Z.div_mod_to_equations. lia.
Qed.

Lemma be16_high_byte (hi lo : Z) :
  is_byte hi -> is_byte lo ->
  to_byte (Z.shiftr (Z.lor (Z.shiftl hi 8) lo) 8) = hi.
Proof.
  unfold is_byte. intros Hhi Hlo.
  rewrite lor_shiftl8 by exact Hlo.
  unfold to_byte. rewrite Z.shiftr_div_pow2 by lia.
  change (2 ^ 8) with 256.
  Z.div_mod_to_equations. lia.
Qed.

Lemma be16_low_byte (hi lo : Z) :
  is_byte lo -> to_byte (Z.lor (Z.shiftl hi 8) lo) = lo.
Proof.
  unfold is_byte. intros Hlo.
  rewrite lor_shiftl8 by exact Hlo.
  unfold to_byte. Z.div_mod_to_equations. lia.
Qed.

Lemma be16_is_u16 (hi lo : Z) :
  is_byte hi -> is_byte lo -> is_u16 (Z.lor (Z.shiftl hi 8) lo).
Proof.
  unfold is_byte, is_u16. intros Hhi Hlo.
  rewrite lor_shiftl8 by exact Hlo. lia.
Qed.

Lemma mod16_high_byte (v : Z) :
  to_byte (Z.shiftr (v mod 65536) 8) = to_byte (Z.shiftr v 8).
Proof.
  unfold to_byte. rewrite !Z.shiftr_div_pow2 by lia.
  change (2 ^ 8) with 256.
  Z.div_mod_to_equations. lia.
Qed.

Lemma mod16_low_byte (v : Z) : to_byte (v mod 65536) = to_byte v.
Proof. unfold to_byte. Z.div_mod_to_equations. lia. Qed.

Lemma decoded_payload_elems (d : option (list Z)) :
  slice_elems (decoded_payload d) = slice_elems d.
Proof. unfold decoded_payload. destruct (slice_elems d); reflexivity. Qed.

Lemma isEchoType_is_byte (t : Z) : isEchoType t = true -> is_byte t.
Proof.
  intros H. unfold is_byte.
  destruct (isEchoType_cases _ H) as [-> | [-> | [-> | ->]]]; lia.
Qed.

Lemma isIPv6Echo_isEchoType (t : Z) : isIPv6Echo t = true -> isEchoType t = true.
Proof.
  unfold isIPv6Echo, isEchoType. intros H.
  apply orb_true_iff in H. destruct H as [H | H]; rewrite H;
    rewrite ?orb_true_r; reflexivity.
Qed.

(** ** What the decoder returns *)

(** X2: on at least 8 bytes of a recognized echo type the decoder returns
    the header fields, the identifier and the sequence as the big-endian
    values of their bytes and everything behind offset 8, verbatim, as
    the payload (the nil slice when nothing is behind it). *)
Theorem parse_echo_fields :
  forall b : list Z,
    (8 <= length b)%nat ->
    Forall is_byte b ->
    isEchoType (nth 0 b 0) = true ->
    parseICMPMessage b
    = Ok (mkMessage (nth 0 b 0) (nth 1 b 0) (256 * nth 2 b 0 + nth 3 b 0)
            (Some (mkEcho (256 * nth 4 b 0 + nth 5 b 0)
                          (256 * nth 6 b 0 + nth 7 b 0)
                          (match skipn 8 b with
                           | [] => None
                           | l => Some l
                           end)))).
Proof.
  intros b Hlen Hb Hty.
  destruct b as [| t [| c [| k0 [| k1 [| i0 [| i1 [| s0 [| s1 rest]]]]]]]];
    try (cbn [length] in Hlen; lia).
  cbn [nth skipn] in *.
  repeat match goal with
         | H : Forall _ (_ :: _) |- _ => inversion H; subst; clear H
         end.
  rewrite parseICMPMessage_cons5, Hty, parseICMPEcho_cons4.
  cbn [bind]. rewrite !lor_shiftl8 by assumption.
  destruct rest; reflexivity.
Qed.

Lemma parse_echo_fields_witness :
  (8 <= length ([0; 0; 0xED; 0xCA; 0x12; 0x34; 0; 1; 0xAB; 0xCD]%Z))%nat
  /\ parseICMPMessage [0; 0; 0xED; 0xCA; 0x12; 0x34; 0; 1; 0xAB; 0xCD]
     = Ok (mkMessage 0 0 0xEDCA (Some (mkEcho 0x1234 1 (Some [0xAB; 0xCD])))).
Proof.
  split; [cbn [length]; lia |].
  apply (parse_echo_fields [0; 0; 0xED; 0xCA; 0x12; 0x34; 0; 1; 0xAB; 0xCD]).
  - cbn [length]; lia.
  - repeat constructor; unfold is_byte; lia.
  - reflexivity.
Defined.

(** X3: whatever bytes are decoded, the fields of the message returned are
    in range: type and code are bytes, the checksum, the identifier and
    the sequence are 16-bit values, a body is only attached to a
    recognized echo type, and its payload is the input behind offset 8. *)
Theorem parse_fields_in_range :
  forall (b : list Z) (m : icmpMessage),
    Forall is_byte b ->
    parseICMPMessage b = Ok m ->
    is_byte (Typ m) /\ is_byte (Code m) /\ is_u16 (Checksum m)
    /\ forall p : icmpEcho,
        Body m = Some p ->
        isEchoType (Typ m) = true
        /\ is_u16 (ID p) /\ is_u16 (Seq p)
        /\ slice_elems (Data p) = skipn 8 b
        /\ slice_len (Data p) = Z.of_nat (length b) - 8.
Proof.
  intros b m Hb Hm.
  destruct (Nat.lt_ge_cases (length b) 4) as [Hshort | Hlong].
  { rewrite parseICMPMessage_short in Hm by exact Hshort. discriminate Hm. }
  destruct b as [| t [| c [| k0 [| k1 rest]]]];
    try (cbn [length] in Hlong; lia).
  repeat match goal with
         | H : Forall _ (_ :: _) |- _ => inversion H; subst; clear H
         end.
  match goal with H : Forall is_byte rest |- _ => rename H into Hrest end.
  destruct rest as [| x rest].
  - rewrite parseICMPMessage_header in Hm. injection Hm as <-.
    cbn [Typ Code Checksum Body].
    split; [assumption |]. split; [assumption |].
    split; [apply be16_is_u16; assumption |].
    intros p Hp. discriminate Hp.
  - rewrite parseICMPMessage_cons5 in Hm.
    destruct (isEchoType t) eqn:Hty.
    + destruct (Nat.lt_ge_cases (length (x :: rest)) 4) as [Htr | Hfull].
      { rewrite parseICMPEcho_truncated in Hm by exact Htr. discriminate Hm. }
      destruct rest as [| y [| z [| w rest]]];
        try (cbn [length] in Hfull; lia).
      rewrite parseICMPEcho_cons4 in Hm. cbn [bind] in Hm.
      injection Hm as <-. cbn [Typ Code Checksum Body].
      repeat match goal with
             | H : Forall _ (_ :: _) |- _ => inversion H; subst; clear H
             end.
      split; [assumption |]. split; [assumption |].
      split; [apply be16_is_u16; assumption |].
      intros p Hp. injection Hp as <-. cbn [ID Seq Data skipn length].
      split; [exact Hty |].
      split; [apply be16_is_u16; assumption |].
      split; [apply be16_is_u16; assumption |].
      destruct rest; cbn [slice_elems slice_len length]; split;
        try reflexivity; lia.
    + injection Hm as <-. cbn [Typ Code Checksum Body].
      split; [assumption |]. split; [assumption |].
      split; [apply be16_is_u16; assumption |].
      intros p Hp. discriminate Hp.
Qed.

Lemma parse_fields_in_range_witness :
  Forall is_byte [0; 0; 0xED; 0xCA; 0x12; 0x34; 0; 1; 0xAB; 0xCD]
  /\ is_u16 (Checksum (mkMessage 0 0 0xEDCA
                         (Some (mkEcho 0x1234 1 (Some [0xAB; 0xCD]))))).
Proof.
  assert (Hb : Forall is_byte [0; 0; 0xED; 0xCA; 0x12; 0x34; 0; 1; 0xAB; 0xCD])
    by (repeat constructor; unfold is_byte; lia).
  split; [exact Hb |].
  apply (parse_fields_in_range
           [0; 0; 0xED; 0xCA; 0x12; 0x34; 0; 1; 0xAB; 0xCD]
           (mkMessage 0 0 0xEDCA (Some (mkEcho 0x1234 1 (Some [0xAB; 0xCD]))))
           Hb eq_refl).
Defined.

(** ** Encoding what was decoded, decoding what was encoded *)

Lemma parse_echo_message_any (t c k0 k1 : Z) (p : icmpEcho) :
  isEchoType t = true ->
  parseICMPMessage (t :: c :: k0 :: k1 :: body_bytes (Some p))
  = Ok (mkMessage t c (Z.lor (Z.shiftl k0 8) k1)
          (Some (mkEcho (ID p mod 65536) (Seq p mod 65536)
                        (decoded_payload (Data p))))).
Proof.
  intros Hty. cbn [body_bytes].
  rewrite parseICMPMessage_cons5, Hty, parseICMPEcho_cons4.
  cbn [bind]. rewrite !be16_truncates.
  unfold decoded_payload. destruct (slice_elems (Data p)); reflexivity.
Qed.

Lemma marshal_wire (m : icmpMessage) :
  exists k0 k1 : Z,
    icmpMessage_Marshal m
    = Ok (to_byte (Typ m) :: to_byte (Code m) :: k0 :: k1
          :: body_bytes (Body m))
    /\ is_byte k0 /\ is_byte k1.
Proof.
  rewrite icmpMessage_Marshal_eq. cbv zeta.
  destruct (isIPv6Echo (Typ m)).
  - exists 0, 0. repeat split; unfold is_byte; lia.
  - do 2 eexists. split; [reflexivity |].
    split; apply to_byte_is_byte.
Qed.

(** X4: [Marshal] never returns an error, and its output has the four
    header bytes plus [Len()] bytes of the body (none for an absent body):
    byte(Type), byte(Code), two checksum bytes, then the body. *)
Theorem marshal_length :
  forall m : icmpMessage,
    exists b : list Z,
      icmpMessage_Marshal m = Ok b
      /\ Z.of_nat (length b)
         = 4 + match Body m with
               | Some p => icmpEcho_Len p
               | None => 0
               end
      /\ nth 0 b 0 = to_byte (Typ m)
      /\ nth 1 b 0 = to_byte (Code m)
      /\ skipn 4 b = body_bytes (Body m).
Proof.
  intros m. destruct (marshal_wire m) as (k0 & k1 & Hw & _).
  eexists. split; [exact Hw |].
  split; [| repeat split].
  destruct (Body m) as [p |]; cbn [body_bytes length]; [| lia].
  unfold icmpEcho_Len. rewrite slice_len_elems. lia.
Qed.

Lemma marshal_parse_low_bits :
  forall (m : icmpMessage) (p : icmpEcho),
    Body m = Some p ->
    isEchoType (to_byte (Typ m)) = true ->
    exists (b : list Z) (ck : Z),
      icmpMessage_Marshal m = Ok b
      /\ parseICMPMessage b
         = Ok (mkMessage (to_byte (Typ m)) (to_byte (Code m)) ck
                 (Some (mkEcho (ID p mod 65536) (Seq p mod 65536)
                               (decoded_payload (Data p))))).
Proof.
  intros m p Hbody Hty.
  destruct (marshal_wire m) as (k0 & k1 & Hw & _).
  rewrite Hbody in Hw.
  eexists. eexists. split; [exact Hw |].
  apply parse_echo_message_any. exact Hty.
Qed.

(** X5: decoding an encoded message of a recognized echo type keeps only
    the low bits the wire has room for: the type and code modulo 256, the
    identifier and the sequence modulo 65536, whatever integers the
    message held. *)
Theorem marshal_parse_truncates :
  forall (m : icmpMessage) (p : icmpEcho),
    Body m = Some p ->
    isEchoType (to_byte (Typ m)) = true ->
    exists (b : list Z) (ck : Z),
      icmpMessage_Marshal m = Ok b
      /\ parseICMPMessage b
         = Ok (mkMessage (to_byte (Typ m)) (to_byte (Code m)) ck
                 (Some (mkEcho (ID p mod 65536) (Seq p mod 65536)
                               (decoded_payload (Data p))))).
Proof. exact marshal_parse_low_bits. Qed.

Lemma marshal_parse_truncates_witness :
  isEchoType (to_byte (Typ (mkMessage 264 257 0 (Some (mkEcho 0x1FFFF (-1) None))))) = true
  /\ exists (b : list Z) (ck : Z),
      icmpMessage_Marshal (mkMessage 264 257 0 (Some (mkEcho 0x1FFFF (-1) None)))
      = Ok b
      /\ parseICMPMessage b
         = Ok (mkMessage 8 1 ck (Some (mkEcho 0xFFFF 0xFFFF None))).
Proof.
  split; [reflexivity |].
  apply (marshal_parse_truncates
           (mkMessage 264 257 0 (Some (mkEcho 0x1FFFF (-1) None)))
           (mkEcho 0x1FFFF (-1) None) eq_refl eq_refl).
Defined.

(** X6: a message whose type byte is none of 0, 8, 128, 129 is encoded
    with its body, but decoding the encoding returns no body: the body
    bytes stay undecoded. *)
Theorem marshal_parse_drops_opaque_body :
  forall m : icmpMessage,
    isEchoType (to_byte (Typ m)) = false ->
    exists (b : list Z) (ck : Z),
      icmpMessage_Marshal m = Ok b
      /\ skipn 4 b = body_bytes (Body m)
      /\ parseICMPMessage b
         = Ok (mkMessage (to_byte (Typ m)) (to_byte (Code m)) ck None).
Proof.
  intros m Hty.
  destruct (marshal_wire m) as (k0 & k1 & Hw & _).
  eexists. eexists. split; [exact Hw |]. split; [reflexivity |].
  destruct (body_bytes (Body m)) as [| x rest].
  - apply parseICMPMessage_header.
  - rewrite parseICMPMessage_cons5, Hty. reflexivity.
Qed.

Lemma marshal_parse_drops_opaque_body_witness :
  isEchoType (to_byte (Typ (mkMessage 3 1 0 (Some (mkEcho 7 9 (Some [0xAB])))))) = false
  /\ exists (b : list Z) (ck : Z),
      icmpMessage_Marshal (mkMessage 3 1 0 (Some (mkEcho 7 9 (Some [0xAB])))) = Ok b
      /\ skipn 4 b = [0; 7; 0; 9; 0xAB]
      /\ parseICMPMessage b = Ok (mkMessage 3 1 ck None).
Proof.
  split; [reflexivity |].
  apply (marshal_parse_drops_opaque_body
           (mkMessage 3 1 0 (Some (mkEcho 7 9 (Some [0xAB])))) eq_refl).
Defined.

(** X7: encoding again what was decoded from an encoding gives the same
    bytes: for a message of type 0, 8, 128 or 129 with an echo body,
    whatever integers its other fields hold,
    [Marshal(parse(Marshal m)) = Marshal m]. *)
Theorem marshal_parse_marshal :
  forall (m : icmpMessage) (p : icmpEcho),
    Body m = Some p ->
    isEchoType (Typ m) = true ->
    exists (b : list Z) (m' : icmpMessage),
      icmpMessage_Marshal m = Ok b
      /\ parseICMPMessage b = Ok m'
      /\ icmpMessage_Marshal m' = Ok b.
Proof.
  intros m p Hbody Hty.
  pose proof (to_byte_small _ (isEchoType_is_byte _ Hty)) as Ht.
  assert (Hty' : isEchoType (to_byte (Typ m)) = true) by (rewrite Ht; exact Hty).
  destruct (marshal_parse_low_bits m p Hbody Hty') as (b & ck & Hb & Hm').
  eexists. eexists. split; [exact Hb |]. split; [exact Hm' |].
  rewrite <- Hb, !icmpMessage_Marshal_eq. cbv zeta.
  cbn [Typ Code Body]. rewrite Hbody, !to_byte_idem, Ht.
  assert (Hbb : body_bytes
                  (Some (mkEcho (ID p mod 65536) (Seq p mod 65536)
                                (decoded_payload (Data p))))
                = body_bytes (Some p)).
  { cbn [body_bytes ID Seq Data].
    rewrite !mod16_high_byte, !mod16_low_byte, decoded_payload_elems.
    reflexivity. }
  rewrite Hbb. reflexivity.
Qed.

Lemma marshal_parse_marshal_witness :
  isEchoType (Typ (mkMessage 8 257 0 (Some (mkEcho 0x1FFFF (-1) (Some []))))) = true
  /\ exists (b : list Z) (m' : icmpMessage),
      icmpMessage_Marshal (mkMessage 8 257 0 (Some (mkEcho 0x1FFFF (-1) (Some [])))) = Ok b
      /\ parseICMPMessage b = Ok m'
      /\ icmpMessage_Marshal m' = Ok b.
Proof.
  split; [reflexivity |].
  apply (marshal_parse_marshal
           (mkMessage 8 257 0 (Some (mkEcho 0x1FFFF (-1) (Some []))))
           (mkEcho 0x1FFFF (-1) (Some [])) eq_refl eq_refl).
Defined.

Lemma Ok_inj (A : Type) (x y : A) : Ok x = Ok y -> x = y.
Proof. intros H. congruence. Qed.

(** X8: encoding a decoded message rebuilds the input with its checksum
    field corrected: for a 4-byte input, or an input of at least 8 bytes
    of a recognized echo type, [Marshal] of the decoded message is the
    input with bytes 2 and 3 cleared (types 128, 129) or replaced by the
    checksum computed over the input with those bytes cleared. *)
Theorem marshal_of_parse :
  forall (b : list Z) (m : icmpMessage),
    Forall is_byte b ->
    length b = 4%nat
    \/ ((8 <= length b)%nat /\ isEchoType (nth 0 b 0) = true) ->
    parseICMPMessage b = Ok m ->
    icmpMessage_Marshal m
    = Ok (if isIPv6Echo (nth 0 b 0)
          then store (store b 2 0) 3 0
          else place_checksum (store (store b 2 0) 3 0)
                              (csum (store (store b 2 0) 3 0))).
Proof.
  intros b m Hb Hshape Hm.
  destruct b as [| t [| c [| k0 [| k1 rest]]]];
    try (cbn [length] in Hshape; lia).
  repeat match goal with
         | H : Forall _ (_ :: _) |- _ => inversion H; subst; clear H
         end.
  cbn [nth store] in *.
  rewrite place_checksum_cons4, !Z.lxor_0_l.
  destruct Hshape as [Hfour | [Height Hty]].
  - destruct rest; [| discriminate Hfour].
    rewrite parseICMPMessage_header in Hm. apply Ok_inj in Hm. subst m.
    rewrite icmpMessage_Marshal_eq. cbv zeta. cbn [Typ Code Body body_bytes].
    rewrite !to_byte_small by assumption. reflexivity.
  - destruct rest as [| i0 [| i1 [| s0 [| s1 rest]]]];
      try (cbn [length] in Height; lia).
    repeat match goal with
           | H : Forall _ (_ :: _) |- _ => inversion H; subst; clear H
           end.
    rewrite parseICMPMessage_cons5, Hty, parseICMPEcho_cons4 in Hm.
    cbn [bind] in Hm. apply Ok_inj in Hm. subst m.
    rewrite icmpMessage_Marshal_eq.
    cbv beta iota zeta delta [Typ Code Body body_bytes ID Seq Data].
    rewrite !be16_high_byte, !be16_low_byte by assumption.
    rewrite !to_byte_small by assumption.
    replace (slice_elems match rest with [] => None | _ :: _ => Some rest end)
      with rest by (destruct rest; reflexivity).
    reflexivity.
Qed.

Lemma marshal_of_parse_witness :
  Forall is_byte [8; 0; 0xDE; 0xAD; 0x12; 0x34; 0; 1]
  /\ (length [8; 0; 0xDE; 0xAD; 0x12; 0x34; 0; 1] = 4%nat
      \/ ((8 <= length ([8; 0; 0xDE; 0xAD; 0x12; 0x34; 0; 1]%Z))%nat
          /\ isEchoType (nth 0 [8; 0; 0xDE; 0xAD; 0x12; 0x34; 0; 1] 0) = true))
  /\ icmpMessage_Marshal (mkMessage 8 0 0xDEAD (Some (mkEcho 0x1234 1 None)))
     = Ok [8; 0; 0xE5; 0xCA; 0x12; 0x34; 0; 1].
Proof.
  assert (Hb : Forall is_byte [8; 0; 0xDE; 0xAD; 0x12; 0x34; 0; 1])
    by (repeat constructor; unfold is_byte; lia).
  assert (Hs : length [8; 0; 0xDE; 0xAD; 0x12; 0x34; 0; 1] = 4%nat
               \/ ((8 <= length ([8; 0; 0xDE; 0xAD; 0x12; 0x34; 0; 1]%Z))%nat
                   /\ isEchoType (nth 0 [8; 0; 0xDE; 0xAD; 0x12; 0x34; 0; 1] 0) = true))
    by (right; split; [cbn [length]; lia | reflexivity]).
  split; [exact Hb |]. split; [exact Hs |].
  apply (marshal_of_parse [8; 0; 0xDE; 0xAD; 0x12; 0x34; 0; 1]
           (mkMessage 8 0 0xDEAD (Some (mkEcho 0x1234 1 None))) Hb Hs eq_refl).
Defined.

(** ** The checksum as a value *)

Lemma onec_fold_le :
  forall (ws : list Z) (a : Z),
    Forall is_u16 ws -> 0 <= a <= 65535 ->
    fold_left onec_add16 ws a <= a + fold_right Z.add 0 ws.
Proof.
  induction ws as [| w ws IH]; intros a Hws Ha; cbn [fold_left fold_right].
  - lia.
  - inversion Hws as [| ? ? Hw Hws']; subst.
    destruct (onec_add16_spec a w Ha Hw) as (Hr & Hstep & _).
    specialize (IH (onec_add16 a w) Hws' Hr). lia.
Qed.

Lemma be_word_sum_le_word_sum_nonneg (b : list Z) :
  Forall is_byte b ->
  exists K : Z, 0 <= K /\ 256 * le_word_sum b = be_word_sum b + 65535 * K.
Proof.
  unfold be_word_sum.
  induction b as [| x | x y l IH] using list_pair_ind; intros Hb.
  - exists 0. cbn. lia.
  - inversion Hb as [| ? ? Hx _]; subst. unfold is_byte in Hx.
    cbn [be_words le_word_sum fold_right].
    rewrite Z.shiftl_mul_pow2 by lia. change (2 ^ 8) with 256.
    exists 0. lia.
  - inversion Hb as [| ? ? Hx Hb1]; subst.
    inversion Hb1 as [| ? ? Hy Hl]; subst.
    destruct (IH Hl) as (K & HK0 & HK).
    cbn [be_words le_word_sum fold_right].
    rewrite lor_shiftl8 by exact Hy.
    unfold is_byte in Hx, Hy.
    exists (K + y). lia.
Qed.

(** X9: for a type other than 128 and 129 and an output of bytes no
    longer than 131076, the two checksum bytes [Marshal] stores, read
    big-endian, are the complement of the RFC 1071 one's-complement sum of
    the message with a zero checksum field; the output, body or not,
    sums to 0xFFFF. *)
Theorem marshal_checksum_is_rfc1071 :
  forall (m : icmpMessage) (b : list Z),
    icmpMessage_Marshal m = Ok b ->
    isIPv6Echo (Typ m) = false ->
    Forall is_byte b ->
    Z.of_nat (length b) <= 131076 ->
    256 * nth 2 b 0 + nth 3 b 0
    = 0xFFFF - onec_sum16 (store (store b 2 0) 3 0)
    /\ onec_sum16 b = 0xFFFF.
Proof.
  intros m b Hm H6 Hb Hlen.
  rewrite icmpMessage_Marshal_eq, H6 in Hm. cbv zeta iota in Hm.
  apply Ok_inj in Hm. subst b.
  set (t := to_byte (Typ m)) in *. set (c := to_byte (Code m)) in *.
  set (rest := body_bytes (Body m)) in *.
  set (raw := t :: c :: 0 :: 0 :: rest) in *.
  assert (Ht : is_byte t) by apply to_byte_is_byte.
  assert (Hc : is_byte c) by apply to_byte_is_byte.
  assert (Hrest : Forall is_byte rest).
  { inversion Hb as [| ? ? _ H1]; subst. inversion H1 as [| ? ? _ H2]; subst.
    inversion H2 as [| ? ? _ H3]; subst. inversion H3 as [| ? ? _ H4]; subst.
    exact H4. }
  pose proof (raw_is_bytes t c rest Ht Hc Hrest) as Hraw. cbv zeta in Hraw.
  fold raw in Hraw.
  assert (Hfit : le_word_sum raw < 2 ^ 32).
  { destruct (le_word_sum_bounds _ Hrest) as [_ Hbound].
    unfold raw. cbn [le_word_sum]. cbn [length] in Hlen.
    unfold is_byte in Ht, Hc. change (2 ^ 32) with 4294967296. lia. }
  cbn [nth store]. fold raw.
  split.
  - (* the stored bytes against the big-endian sum of the raw message *)
    destruct (le_word_sum_bounds _ Hraw) as [HS0 _].
    assert (HS : 0 <= le_word_sum raw < 2 ^ 32) by lia.
    destruct (csum_fold_spec _ HS) as (_ & q & Hq & Hsum & Hzero).
    rewrite <- (u32_small _ HS) in Hsum at 2. rewrite <- (u32_small _ HS) in Hzero at 1.
    rewrite <- csum_acc_le_word_sum, <- csum_eq in Hsum, Hzero by exact Hraw.
    destruct (checksum_word (csum raw) (u32_range _)) as (Hk0 & Hk1 & Hw).
    destruct (be_word_sum_le_word_sum raw Hraw) as (Hws & HB0 & HBz & _).
    destruct (be_word_sum_le_word_sum_nonneg raw Hraw) as (K & HK0 & HK).
    unfold be_word_sum in *.
    destruct (onec_fold_spec (be_words raw) 0 Hws ltac:(lia))
      as (Hr & (q' & Hq') & Hr0).
    pose proof (onec_fold_le (be_words raw) 0 Hws ltac:(lia)) as Hle.
    fold (onec_sum16 raw) in *.
    assert (Hf : 0 <= csum raw mod 65536 < 65536)
      by (apply Z.mod_pos_bound; lia).
    unfold is_byte in Hk0, Hk1.
    set (k0 := to_byte (u32 (Z.lnot (csum raw)))) in *.
    set (k1 := to_byte (Z.shiftr (u32 (Z.lnot (csum raw))) 8)) in *.
    set (f := csum raw mod 65536) in *.
    set (r := onec_sum16 raw) in *.
    set (S := le_word_sum raw) in *.
    set (BE := fold_right Z.add 0 (be_words raw)) in *.
    assert (HN : 256 * k0 + k1 + r = 65535 * (256 + 256 * q - K - q' - k1)) by lia.
    destruct (Z.eq_dec r 0) as [Er | Er].
    + specialize (Hr0 Er). lia.
    + destruct (Z.eq_dec f 0) as [Ef | Ef].
      * specialize (Hzero Ef). lia.
      * lia.
  - destruct (le_word_sum_out_no_wrap t c rest Ht Hc Hrest Hfit)
      as (q & Hq & Hsum).
    apply (onec_sum16_of_multiple _ q); trivial.
Qed.

Lemma marshal_checksum_is_rfc1071_witness :
  Forall is_byte [8; 0; 0xE5; 0xCA; 0x12; 0x34; 0; 1]
  /\ Z.of_nat (length [8; 0; 0xE5; 0xCA; 0x12; 0x34; 0; 1]) <= 131076
  /\ 256 * 0xE5 + 0xCA = 0xFFFF - onec_sum16 [8; 0; 0; 0; 0x12; 0x34; 0; 1]
  /\ onec_sum16 [8; 0; 0xE5; 0xCA; 0x12; 0x34; 0; 1] = 0xFFFF.
Proof.
  assert (Hb : Forall is_byte [8; 0; 0xE5; 0xCA; 0x12; 0x34; 0; 1])
    by (repeat constructor; unfold is_byte; lia).
  assert (Hl : Z.of_nat (length [8; 0; 0xE5; 0xCA; 0x12; 0x34; 0; 1]) <= 131076)
    by (cbn [length]; lia).
  split; [exact Hb |]. split; [exact Hl |].
  apply (marshal_checksum_is_rfc1071
           (mkMessage 8 0 0 (Some (mkEcho 0x1234 1 None)))
           [8; 0; 0xE5; 0xCA; 0x12; 0x34; 0; 1] eq_refl eq_refl Hb Hl).
Defined.

(** X10: before the folds, the accumulator of the checksum loop (pairs of
    bytes as little-endian words up to [len-1], then the odd last byte)
    holds the sum of all little-endian 16-bit words of the message modulo
    2^32, an odd last byte counting as a low byte; up to 131074 bytes the
    sum itself. *)
Theorem csum_acc_is_word_sum :
  forall b : list Z,
    Forall is_byte b ->
    csum_acc b = le_word_sum b mod 2 ^ 32
    /\ csum b = csum_fold (le_word_sum b mod 2 ^ 32)
    /\ (Z.of_nat (length b) <= 131074 -> csum_acc b = le_word_sum b).
Proof.
  intros b Hb.
  pose proof (csum_acc_le_word_sum b Hb) as Hacc. unfold u32 in Hacc.
  split; [exact Hacc |].
  split; [rewrite csum_eq, Hacc; reflexivity |].
  intros Hlen. rewrite Hacc.
  destruct (le_word_sum_bounds b Hb) as [H0 Hbound].
  apply Z.mod_small. change (2 ^ 32) with 4294967296. lia.
Qed.

Lemma csum_acc_is_word_sum_witness :
  Forall is_byte [0x01; 0x02; 0x03]
  /\ csum_acc [0x01; 0x02; 0x03] = (0x0201 + 0x03) mod 2 ^ 32.
Proof.
  assert (Hb : Forall is_byte [0x01; 0x02; 0x03])
    by (repeat constructor; unfold is_byte; lia).
  split; [exact Hb |].
  exact (proj1 (csum_acc_is_word_sum [0x01; 0x02; 0x03] Hb)).
Defined.

(** * The IPv4 header and the receive loop *)

Lemma ipv4Payload_short (b : list Z) :
  (length b < 20)%nat -> ipv4Payload b = Ok b.
Proof.
  intros H. unfold ipv4Payload.
  destruct (Z.ltb_spec (Z.of_nat (length b)) 20); [reflexivity | lia].
Qed.

Lemma land_0x0f (x : Z) : Z.land x 0x0f = x mod 16.
Proof. change 0x0f with (Z.ones 4). rewrite Z.land_ones by lia. reflexivity. Qed.

Lemma ipv4Payload_long (b0 : Z) (rest : list Z) :
  (20 <= length (b0 :: rest))%nat ->
  ipv4Payload (b0 :: rest)
  = if 4 * (b0 mod 16) <=? Z.of_nat (length (b0 :: rest))
    then Ok (skipn (Z.to_nat (4 * (b0 mod 16))) (b0 :: rest))
    else Panic.
Proof.
  intros H. unfold ipv4Payload.
  destruct (Z.ltb_spec (Z.of_nat (length (b0 :: rest))) 20); [lia |].
  cbn [index nth_error bind].
  rewrite land_0x0f, Z.shiftl_mul_pow2 by lia.
  change (2 ^ 2) with 4. rewrite (Z.mul_comm (b0 mod 16) 4).
  reflexivity.
Qed.

Lemma ipv4Payload_split :
  forall b b' : list Z,
    ipv4Payload b = Ok b' ->
    exists hdr : list Z,
      b = hdr ++ b'
      /\ (length hdr <= 60)%nat
      /\ ((length b < 20)%nat -> hdr = [])
      /\ ((20 <= length b)%nat ->
          Z.of_nat (length hdr) = 4 * (nth 0 b 0 mod 16)).
Proof.
  intros b b' H.
  destruct (Nat.lt_ge_cases (length b) 20) as [Hs | Hl].
  - rewrite ipv4Payload_short in H by exact Hs. apply Ok_inj in H. subst b'.
    exists []. repeat split; try reflexivity; cbn [length]; lia.
  - destruct b as [| b0 rest]; [cbn [length] in Hl; lia |].
    rewrite ipv4Payload_long in H by exact Hl.
    assert (Hm : 0 <= b0 mod 16 < 16) by (apply Z.mod_pos_bound; lia).
    destruct (Z.leb_spec (4 * (b0 mod 16)) (Z.of_nat (length (b0 :: rest))))
      as [Hle | Hgt]; [| discriminate H].
    apply Ok_inj in H. subst b'.
    exists (firstn (Z.to_nat (4 * (b0 mod 16))) (b0 :: rest)).
    rewrite firstn_skipn. split; [reflexivity |].
    rewrite length_firstn. cbn [nth].
    repeat split; try lia.
Qed.

(** X11: [ipv4Payload] returns a buffer shorter than 20 bytes unchanged;
    on a longer one it never returns an error, and what it returns is the
    buffer behind its first [4 * (b[0] & 0x0f)] bytes, at most 60, with
    no check that this header length is at least 20. *)
Theorem ipv4Payload_suffix :
  forall b b' : list Z,
    ipv4Payload b = Ok b' ->
    exists hdr : list Z,
      b = hdr ++ b'
      /\ (length hdr <= 60)%nat
      /\ ((length b < 20)%nat -> hdr = [])
      /\ ((20 <= length b)%nat ->
          Z.of_nat (length hdr) = 4 * (nth 0 b 0 mod 16)).
Proof. exact ipv4Payload_split. Qed.

Lemma ipv4Payload_suffix_witness :
  ipv4Payload (ipv4Header ++ [8; 0; 0xE5; 0xCA; 0x12; 0x34; 0; 1])
  = Ok [8; 0; 0xE5; 0xCA; 0x12; 0x34; 0; 1]
  /\ exists hdr : list Z,
      ipv4Header ++ [8; 0; 0xE5; 0xCA; 0x12; 0x34; 0; 1]
      = hdr ++ [8; 0; 0xE5; 0xCA; 0x12; 0x34; 0; 1]
      /\ (length hdr <= 60)%nat.
Proof.
  assert (H : ipv4Payload (ipv4Header ++ [8; 0; 0xE5; 0xCA; 0x12; 0x34; 0; 1])
              = Ok [8; 0; 0xE5; 0xCA; 0x12; 0x34; 0; 1]) by reflexivity.
  split; [exact H |].
  destruct (ipv4Payload_suffix _ _ H) as (hdr & H1 & H2 & _).
  exists hdr. split; assumption.
Defined.

(** X12: [ipv4Payload] panics exactly when the buffer has at least 20
    bytes and the header length its first byte announces exceeds the
    buffer; with 60 bytes or more it cannot panic. *)
Theorem ipv4Payload_panics :
  forall b : list Z,
    (ipv4Payload b = Panic
     <-> (20 <= length b)%nat
         /\ Z.of_nat (length b) < 4 * (nth 0 b 0 mod 16))
    /\ ((60 <= length b)%nat -> exists b', ipv4Payload b = Ok b')
    /\ (forall e, ipv4Payload b <> Err e).
Proof.
  intros b.
  destruct (Nat.lt_ge_cases (length b) 20) as [Hs | Hl].
  - rewrite ipv4Payload_short by exact Hs.
    split; [split; [discriminate | lia] |].
    split; [lia | discriminate].
  - destruct b as [| b0 rest]; [cbn [length] in Hl; lia |].
    rewrite ipv4Payload_long by exact Hl. cbn [nth].
    assert (Hm : 0 <= b0 mod 16 < 16) by (apply Z.mod_pos_bound; lia).
    destruct (Z.leb_spec (4 * (b0 mod 16)) (Z.of_nat (length (b0 :: rest))))
      as [Hle | Hgt].
    + split; [split; [discriminate | lia] |].
      split; [eauto | discriminate].
    + split; [split; [intros _; split; [exact Hl | exact Hgt] | reflexivity] |].
      split; [intros H60; lia | discriminate].
Qed.

(** X13: a datagram made of an IPv4 header of [4 * ihl] bytes,
    [5 <= ihl <= 15], whose first byte carries [ihl] in its low four
    bits, followed by a payload, is cut down to that payload. *)
Theorem ipv4Payload_strips_header :
  forall (hdr payload : list Z) (ihl : Z),
    5 <= ihl <= 15 ->
    Z.of_nat (length hdr) = 4 * ihl ->
    nth 0 hdr 0 mod 16 = ihl ->
    ipv4Payload (hdr ++ payload) = Ok payload.
Proof.
  intros hdr payload ihl Hihl Hlen Hb0.
  destruct hdr as [| b0 hrest]; [cbn [length] in Hlen; lia |].
  cbn [nth] in Hb0. change ((b0 :: hrest) ++ payload) with (b0 :: hrest ++ payload).
  rewrite ipv4Payload_long
    by (cbn [length] in *; rewrite length_app; lia).
  rewrite Hb0.
  destruct (Z.leb_spec (4 * ihl) (Z.of_nat (length (b0 :: hrest ++ payload))))
    as [_ | Hgt].
  - f_equal.
    replace (Z.to_nat (4 * ihl)) with (length (b0 :: hrest)) by lia.
    change (b0 :: hrest ++ payload) with ((b0 :: hrest) ++ payload).
    rewrite skipn_app, skipn_all, Nat.sub_diag. reflexivity.
  - cbn [length] in *. rewrite length_app in Hgt. lia.
Qed.

Lemma ipv4Payload_strips_header_witness :
  5 <= 5 <= 15
  /\ Z.of_nat (length ipv4Header) = 4 * 5
  /\ nth 0 ipv4Header 0 mod 16 = 5
  /\ ipv4Payload (ipv4Header ++ [8; 0; 0xE5; 0xCA; 0x12; 0x34; 0; 1])
     = Ok [8; 0; 0xE5; 0xCA; 0x12; 0x34; 0; 1].
Proof.
  split; [lia |]. split; [reflexivity |]. split; [reflexivity |].
  apply (ipv4Payload_strips_header ipv4Header
           [8; 0; 0xE5; 0xCA; 0x12; 0x34; 0; 1] 5).
  - lia.
  - reflexivity.
  - reflexivity.
Defined.

(** ** The buffer of the receive loop *)

Lemma fill_length (rb pkt : list Z) : length (fill rb pkt) = length rb.
Proof.
  unfold fill. rewrite length_app, length_firstn, length_skipn. lia.
Qed.

Lemma recvStep_buffer (ip4 : bool) (rb pkt rb' : list Z) (m : icmpMessage) :
  recvStep ip4 rb pkt = Ok (rb', m) ->
  (length rb' <= length rb)%nat
  /\ (ip4 = false -> rb' = fill rb pkt)
  /\ parseICMPMessage rb' = Ok m.
Proof.
  unfold recvStep. intros H.
  destruct ip4.
  - destruct (ipv4Payload (fill rb pkt)) as [rb1 | e |] eqn:Hp;
      cbn [bind] in H; try discriminate H.
    destruct (parseICMPMessage rb1) as [m1 | e |] eqn:Hm;
      cbn [bind] in H; try discriminate H.
    apply Ok_inj in H. injection H as Hrb Hmm. subst rb1 m1.
    destruct (ipv4Payload_split _ _ Hp) as (hdr & Hsplit & _).
    pose proof (f_equal (@length Z) Hsplit) as Hlen.
    rewrite fill_length, length_app in Hlen.
    split; [lia |]. split; [discriminate | exact Hm].
  - cbn [bind] in H.
    destruct (parseICMPMessage (fill rb pkt)) as [m1 | e |] eqn:Hm;
      cbn [bind] in H; try discriminate H.
    apply Ok_inj in H. injection H as Hrb Hmm. subst rb' m1.
    rewrite fill_length. split; [lia |]. split; [reflexivity | exact Hm].
Qed.

(** X14: the buffer the loop reads into never grows: while requests are
    skipped, [TestPacketConnICMPEcho] keeps a buffer of the same length,
    and [TestConnICMPEcho], which rebinds [rb] to [ipv4Payload(rb)], a
    buffer that is at most as long as before. *)
Theorem recv_buffer_never_grows :
  forall (ip4 : bool) (rb rb' : list Z) (pre : list (list Z)),
    skips ip4 rb pre rb' ->
    (length rb' <= length rb)%nat
    /\ (ip4 = false -> length rb' = length rb).
Proof.
  intros ip4 rb rb' pre Hs.
  induction Hs as [rb | rb pkt rb1 m pkts rb' Hstep Hreq _ IH].
  - split; [lia | reflexivity].
  - destruct (recvStep_buffer _ _ _ _ _ Hstep) as (Hle & Hfill & _).
    destruct IH as [IH1 IH2].
    split; [lia |].
    intros Hip. rewrite (IH2 Hip), (Hfill Hip). apply fill_length.
Qed.

Lemma recv_buffer_never_grows_witness :
  skips true (repeat 0 28)
        [ipv4Header ++ [8; 0; 0xE5; 0xCA; 0x12; 0x34; 0; 1]]
        [8; 0; 0xE5; 0xCA; 0x12; 0x34; 0; 1]
  /\ (length ([8; 0; 0xE5; 0xCA; 0x12; 0x34; 0; 1]%Z) <= length (repeat 0%Z 28))%nat.
Proof.
  assert (Hs : skips true (repeat 0 28)
                 [ipv4Header ++ [8; 0; 0xE5; 0xCA; 0x12; 0x34; 0; 1]]
                 [8; 0; 0xE5; 0xCA; 0x12; 0x34; 0; 1]).
  { eapply skips_cons; [reflexivity | reflexivity | apply skips_nil]. }
  split; [exact Hs |].
  exact (proj1 (recv_buffer_never_grows true _ _ _ Hs)).
Defined.

(** ** Datagrams taken by themselves, and what the loop makes of them *)

Lemma parseICMPMessage_head (b : list Z) (m : icmpMessage) :
  parseICMPMessage b = Ok m ->
  (4 <= length b)%nat
  /\ Typ m = nth 0 b 0 /\ Code m = nth 1 b 0
  /\ Checksum m = Z.lor (Z.shiftl (nth 2 b 0) 8) (nth 3 b 0).
Proof.
  intros H.
  destruct (Nat.lt_ge_cases (length b) 4) as [Hs | Hl].
  { rewrite parseICMPMessage_short in H by exact Hs. discriminate H. }
  split; [exact Hl |].
  destruct b as [| t [| c [| k0 [| k1 rest]]]];
    try (cbn [length] in Hl; lia).
  cbn [nth].
  destruct rest as [| x rest].
  - rewrite parseICMPMessage_header in H. apply Ok_inj in H. subst m.
    repeat split.
  - rewrite parseICMPMessage_cons5 in H.
    destruct (isEchoType t).
    + destruct (parseICMPEcho (x :: rest)) as [p | e |];
        cbn [bind] in H; try discriminate H.
      apply Ok_inj in H. subst m. repeat split.
    + apply Ok_inj in H. subst m. repeat split.
Qed.

Lemma parseICMPMessage_key (b : list Z) (m : icmpMessage) :
  (8 <= length b)%nat ->
  parseICMPMessage b = Ok m ->
  (isEchoType (nth 0 b 0) = false -> Body m = None)
  /\ (isEchoType (nth 0 b 0) = true ->
      exists p : icmpEcho,
        Body m = Some p
        /\ ID p = Z.lor (Z.shiftl (nth 4 b 0) 8) (nth 5 b 0)
        /\ Seq p = Z.lor (Z.shiftl (nth 6 b 0) 8) (nth 7 b 0)).
Proof.
  intros Hl H.
  destruct b as [| t [| c [| k0 [| k1 [| i0 [| i1 [| s0 [| s1 rest]]]]]]]];
    try (cbn [length] in Hl; lia).
  cbn [nth]. rewrite parseICMPMessage_cons5 in H.
  destruct (isEchoType t).
  - rewrite parseICMPEcho_cons4 in H. cbn [bind] in H.
    apply Ok_inj in H. subst m.
    split; [discriminate |]. intros _.
    eexists. split; [reflexivity |]. split; reflexivity.
  - apply Ok_inj in H. subst m. split; [reflexivity | discriminate].
Qed.

(** Two buffers that agree on their first bytes decode to messages that
    agree on the header and, from 8 bytes on, on the key of the body. *)
Lemma parseICMPMessage_agree (b b' : list Z) (m m' : icmpMessage) :
  (8 <= length b)%nat ->
  parseICMPMessage b = Ok m -> parseICMPMessage b' = Ok m' ->
  (forall i, (i < 4)%nat -> nth i b 0 = nth i b' 0) ->
  Typ m = Typ m' /\ Code m = Code m' /\ Checksum m = Checksum m'
  /\ ((8 <= length b')%nat ->
      (forall i, (i < 8)%nat -> nth i b 0 = nth i b' 0) ->
      forall p' : icmpEcho,
        Body m' = Some p' ->
        exists p : icmpEcho,
          Body m = Some p /\ ID p = ID p' /\ Seq p = Seq p').
Proof.
  intros Hl Hm Hm' H4.
  destruct (parseICMPMessage_head _ _ Hm) as (_ & Ht & Hc & Hk).
  destruct (parseICMPMessage_head _ _ Hm') as (_ & Ht' & Hc' & Hk').
  rewrite Ht, Hc, Hk, Ht', Hc', Hk'.
  rewrite !H4 by lia.
  split; [reflexivity |]. split; [reflexivity |]. split; [reflexivity |].
  intros Hl' H8 p' Hp'.
  destruct (parseICMPMessage_key _ _ Hl Hm) as [_ Hyes].
  destruct (parseICMPMessage_key _ _ Hl' Hm') as [Hno' Hyes'].
  destruct (isEchoType (nth 0 b' 0)) eqn:Hty.
  - destruct (Hyes' eq_refl) as (q' & Hq' & Hid' & Hseq').
    rewrite Hq' in Hp'. injection Hp' as <-.
    rewrite (H8 0%nat) in Hyes by lia.
    destruct (Hyes Hty) as (q & Hq & Hid & Hseq).
    exists q. split; [exact Hq |].
    rewrite Hid, Hseq, Hid', Hseq', !H8 by lia.
    split; reflexivity.
  - rewrite (Hno' eq_refl) in Hp'. discriminate Hp'.
Qed.

Lemma fill_nth (rb pkt : list Z) (i : nat) :
  (i < length rb)%nat -> (i < length pkt)%nat ->
  nth i (fill rb pkt) 0 = nth i pkt 0.
Proof.
  intros Hr Hp. unfold fill.
  rewrite app_nth1 by (rewrite length_firstn; lia).
  rewrite nth_firstn.
  destruct (Nat.ltb_spec i (length rb)); [reflexivity | lia].
Qed.

(** One datagram on the loop of [TestPacketConnICMPEcho]. *)
Lemma packet_step (rb pkt : list Z) (mp : icmpMessage) :
  (8 <= length rb)%nat ->
  decodeAlone false pkt = Ok mp ->
  exists m : icmpMessage,
    recvStep false rb pkt = Ok (fill rb pkt, m)
    /\ Typ m = Typ mp /\ Code m = Code mp /\ Checksum m = Checksum mp
    /\ ((8 <= length pkt)%nat ->
        forall p : icmpEcho,
          Body mp = Some p ->
          exists p' : icmpEcho,
            Body m = Some p' /\ ID p' = ID p /\ Seq p' = Seq p).
Proof.
  intros Hrb Hmp.
  change (decodeAlone false pkt) with (parseICMPMessage pkt) in Hmp.
  destruct (parseICMPMessage_head _ _ Hmp) as (Hlen & _).
  destruct (parseICMPMessage_outcomes (fill rb pkt)) as (_ & _ & Hok & _).
  destruct (proj2 Hok) as [m Hm].
  { rewrite fill_length. split; [lia | left; lia]. }
  exists m. split.
  { rewrite recvStep_packet, Hm. reflexivity. }
  destruct (parseICMPMessage_agree (fill rb pkt) pkt m mp)
    as (Ht & Hc & Hk & Hbody); trivial.
  - rewrite fill_length. exact Hrb.
  - intros i Hi. apply fill_nth; lia.
  - split; [exact Ht |]. split; [exact Hc |]. split; [exact Hk |].
    intros H8 p Hp. apply (Hbody H8); [| exact Hp].
    intros i Hi. apply fill_nth; lia.
Qed.

Lemma packet_requests_skipped (rb : list Z) (pre : list (list Z)) :
  (8 <= length rb)%nat ->
  Forall (isRequestDatagram false) pre ->
  exists rb' : list Z, skips false rb pre rb' /\ length rb' = length rb.
Proof.
  intros Hrb Hpre. revert rb Hrb.
  induction Hpre as [| q pre Hq _ IH]; intros rb Hrb.
  - exists rb. split; [constructor | reflexivity].
  - destruct Hq as (mq & Hq & Hreq).
    destruct (packet_step rb q mq Hrb Hq) as (m & Hstep & Ht & _).
    destruct (IH (fill rb q)) as (rb' & Hs & Hlen).
    { rewrite fill_length. exact Hrb. }
    exists rb'. split.
    + eapply skips_cons; [exact Hstep | rewrite Ht; exact Hreq | exact Hs].
    + rewrite Hlen. apply fill_length.
Qed.

(** One datagram on the loop of [TestConnICMPEcho] on ["ip4"]: the
    buffer that goes on to the next read is 20 bytes shorter. *)
Lemma ipv4Payload_ihl5 (b : list Z) :
  (20 <= length b)%nat -> nth 0 b 0 mod 16 = 5 ->
  ipv4Payload b = Ok (skipn 20 b).
Proof.
  intros Hl H5. destruct b as [| b0 rest]; [cbn [length] in Hl; lia |].
  cbn [nth] in H5. rewrite ipv4Payload_long by exact Hl. rewrite H5.
  destruct (Z.leb_spec (4 * 5) (Z.of_nat (length (b0 :: rest)))) as [_ | Hgt];
    [reflexivity | lia].
Qed.

Lemma decodeAlone_ip4 (pkt : list Z) :
  ip4Datagram pkt ->
  decodeAlone true pkt = parseICMPMessage (skipn 20 pkt).
Proof.
  intros [Hl H5]. unfold decodeAlone.
  rewrite ipv4Payload_ihl5 by (trivial; lia). reflexivity.
Qed.

Lemma conn_step (rb pkt : list Z) (mp : icmpMessage) :
  (28 <= length rb)%nat ->
  ip4Datagram pkt ->
  decodeAlone true pkt = Ok mp ->
  exists m : icmpMessage,
    recvStep true rb pkt = Ok (skipn 20 (fill rb pkt), m)
    /\ Typ m = Typ mp /\ Code m = Code mp /\ Checksum m = Checksum mp
    /\ (forall p : icmpEcho,
           Body mp = Some p ->
           exists p' : icmpEcho,
             Body m = Some p' /\ ID p' = ID p /\ Seq p' = Seq p).
Proof.
  intros Hrb Hd Hmp.
  rewrite decodeAlone_ip4 in Hmp by exact Hd.
  destruct Hd as [Hl H5].
  assert (Hstrip : ipv4Payload (fill rb pkt) = Ok (skipn 20 (fill rb pkt))).
  { apply ipv4Payload_ihl5; [rewrite fill_length; lia |].
    rewrite fill_nth by lia. exact H5. }
  assert (Hlen : length (skipn 20 (fill rb pkt)) = (length rb - 20)%nat).
  { rewrite length_skipn, fill_length. reflexivity. }
  destruct (parseICMPMessage_outcomes (skipn 20 (fill rb pkt)))
    as (_ & _ & Hok & _).
  destruct (proj2 Hok) as [m Hm].
  { rewrite Hlen. split; [lia | left; lia]. }
  exists m. split.
  { unfold recvStep. rewrite Hstrip. cbn [bind]. rewrite Hm. reflexivity. }
  assert (Hnth : forall i, (i < 8)%nat ->
                           nth i (skipn 20 (fill rb pkt)) 0
                           = nth i (skipn 20 pkt) 0).
  { intros i Hi. rewrite !nth_skipn. apply fill_nth; lia. }
  destruct (parseICMPMessage_agree (skipn 20 (fill rb pkt)) (skipn 20 pkt) m mp)
    as (Ht & Hc & Hk & Hbody); trivial.
  - rewrite Hlen. lia.
  - intros i Hi. apply Hnth. lia.
  - split; [exact Ht |]. split; [exact Hc |]. split; [exact Hk |].
    apply Hbody; [rewrite length_skipn; lia | exact Hnth].
Qed.

Lemma conn_requests_skipped (rb : list Z) (pre : list (list Z)) :
  (20 * length pre + 8 <= length rb)%nat ->
  Forall (fun q => ip4Datagram q /\ isRequestDatagram true q) pre ->
  exists rb' : list Z,
    skips true rb pre rb'
    /\ (length rb' + 20 * length pre = length rb)%nat.
Proof.
  intros Hrb Hpre. revert rb Hrb.
  induction Hpre as [| q pre Hq _ IH]; intros rb Hrb; cbn [length] in *.
  - exists rb. split; [constructor | lia].
  - destruct Hq as (Hd & mq & Hq & Hreq).
    destruct (conn_step rb q mq) as (m & Hstep & Ht & _);
      [lia | exact Hd | exact Hq |].
    destruct (IH (skipn 20 (fill rb q))) as (rb' & Hs & Hlen).
    { rewrite length_skipn, fill_length. lia. }
    rewrite length_skipn, fill_length in Hlen.
    exists rb'. split.
    + eapply skips_cons; [exact Hstep | rewrite Ht; exact Hreq | exact Hs].
    + lia.
Qed.

(** X15: a failed read ends the loop at once, and nothing behind it is
    read, after any number of datagrams that are Echo Requests: on the
    loop of [TestPacketConnICMPEcho] with a buffer of at least 8 bytes,
    and on the ["ip4"] loop of [TestConnICMPEcho] as long as its buffer,
    which loses 20 bytes at every datagram, had 20 bytes for each of them
    and 8 more.  There a transport that only delivers Echo Requests ends
    in the read failure of the deadline. *)
Theorem recvLoop_read_failure_is_fatal :
  (forall (rb : list Z) (pre : list (list Z)),
      (8 <= length rb)%nat ->
      Forall (isRequestDatagram false) pre ->
      (forall (e : string) (rest : conn),
          recvLoop false (map Datagram pre ++ ReadError e :: rest) rb
          = Err errRead)
      /\ recvLoop false (map Datagram pre) rb = Err errRead)
  /\ (forall (rb : list Z) (pre : list (list Z)),
         (20 * length pre + 8 <= length rb)%nat ->
         Forall (fun q => ip4Datagram q /\ isRequestDatagram true q) pre ->
         (forall (e : string) (rest : conn),
             recvLoop true (map Datagram pre ++ ReadError e :: rest) rb
             = Err errRead)
         /\ recvLoop true (map Datagram pre) rb = Err errRead).
Proof.
  split.
  - intros rb pre Hrb Hpre.
    destruct (packet_requests_skipped rb pre Hrb Hpre) as (rb' & Hs & _).
    split.
    + intros e rest. rewrite (recvLoop_skips _ _ _ _ _ Hs). reflexivity.
    + apply (recvLoop_all_requests _ _ _ _ Hs).
  - intros rb pre Hrb Hpre.
    destruct (conn_requests_skipped rb pre Hrb Hpre) as (rb' & Hs & _).
    split.
    + intros e rest. rewrite (recvLoop_skips _ _ _ _ _ Hs). reflexivity.
    + apply (recvLoop_all_requests _ _ _ _ Hs).
Qed.

Lemma recvLoop_read_failure_is_fatal_witness :
  ((8 <= length (repeat 0%Z 88))%nat
   /\ Forall (isRequestDatagram false)
        (repeat (wire (echoMessage icmpv4EchoRequest 0x1234 1 gadget3)) 5)
   /\ recvLoop false
        (map Datagram
           (repeat (wire (echoMessage icmpv4EchoRequest 0x1234 1 gadget3)) 5))
        (repeat 0 88)
      = Err errRead)
  /\ ((20 * length (repeat (echoDatagram icmpv4EchoRequest 0x1234 1 gadget3) 4)
       + 8 <= length (repeat 0%Z 88))%nat
      /\ Forall (fun q => ip4Datagram q /\ isRequestDatagram true q)
           (repeat (echoDatagram icmpv4EchoRequest 0x1234 1 gadget3) 4)
      /\ recvLoop true
           (map Datagram
              (repeat (echoDatagram icmpv4EchoRequest 0x1234 1 gadget3) 4)
            ++ ReadError "i/o timeout"
            :: [Datagram (echoDatagram icmpv4EchoReply 0x1234 1 gadget3)])
           (repeat 0 88)
         = Err errRead).
Proof.
  assert (Hreq : isRequestDatagram false
                   (wire (echoMessage icmpv4EchoRequest 0x1234 1 gadget3))).
  { eexists. split; vm_compute; reflexivity. }
  assert (Hreq4 : ip4Datagram (echoDatagram icmpv4EchoRequest 0x1234 1 gadget3)
                  /\ isRequestDatagram true
                       (echoDatagram icmpv4EchoRequest 0x1234 1 gadget3)).
  { split; [split; [vm_compute; lia | reflexivity] |].
    eexists. split; vm_compute; reflexivity. }
  assert (H8 : (8 <= length (repeat 0%Z 88))%nat)
    by (rewrite repeat_length; lia).
  assert (H88 : (20 * length (repeat (echoDatagram icmpv4EchoRequest 0x1234 1
                                         gadget3) 4)
                 + 8 <= length (repeat 0%Z 88))%nat)
    by (rewrite !repeat_length; lia).
  assert (Hpre : Forall (isRequestDatagram false)
                   (repeat (wire (echoMessage icmpv4EchoRequest 0x1234 1 gadget3)) 5))
    by (repeat constructor; exact Hreq).
  assert (Hpre4 : Forall (fun q => ip4Datagram q /\ isRequestDatagram true q)
                    (repeat (echoDatagram icmpv4EchoRequest 0x1234 1 gadget3) 4))
    by (repeat constructor; exact (proj1 Hreq4) || exact (proj2 Hreq4)).
  split.
  - split; [exact H8 |]. split; [exact Hpre |].
    exact (proj2 (proj1 recvLoop_read_failure_is_fatal _ _ H8 Hpre)).
  - split; [exact H88 |]. split; [exact Hpre4 |].
    exact (proj1 (proj2 recvLoop_read_failure_is_fatal _ _ H88 Hpre4)
                 "i/o timeout"%string
                 [Datagram (echoDatagram icmpv4EchoReply 0x1234 1 gadget3)]).
Defined.



(** X17: with a buffer of at least 8 bytes (the tests allocate at least
    24) the loop of [TestPacketConnICMPEcho] never fails in
    [parseICMPMessage]: it parses the whole buffer, whose length stays
    the same, so it neither meets the too-short error nor the panic on a
    truncated body, whatever the datagrams; it ends with a message or
    with the read failure. *)
Theorem recvLoop_packet_never_fails_decoding :
  forall (c : conn) (rb : list Z),
    (8 <= length rb)%nat ->
    recvLoop false c rb = Err errRead
    \/ exists m : icmpMessage, recvLoop false c rb = Ok m.
Proof.
  induction c as [| ev c IH]; intros rb Hlen.
  - left. reflexivity.
  - destruct ev as [e | pkt]; [left; reflexivity |].
    rewrite recvLoop_datagram, recvStep_packet.
    pose proof (fill_length rb pkt) as Hfill.
    destruct (parseICMPMessage_outcomes (fill rb pkt)) as (_ & _ & Hok & _).
    destruct (proj2 Hok) as [m Hm].
    { split; [lia | left; lia]. }
    rewrite Hm. cbn [bind].
    destruct (isEchoRequest (Typ m)).
    + apply IH. lia.
    + right. exists m. reflexivity.
Qed.

Lemma recvLoop_packet_never_fails_decoding_witness :
  (8 <= length (repeat 0%Z 28))%nat
  /\ (recvLoop false [Datagram [8; 0; 0; 0; 1]; Datagram [0xFF]] (repeat 0 28)
      = Err errRead
      \/ exists m : icmpMessage,
          recvLoop false [Datagram [8; 0; 0; 0; 1]; Datagram [0xFF]] (repeat 0 28)
          = Ok m).
Proof.
  split; [cbn [repeat length]; lia |].
  apply (recvLoop_packet_never_fails_decoding
           [Datagram [8; 0; 0; 0; 1]; Datagram [0xFF]] (repeat 0 28)).
  cbn [repeat length]; lia.
Defined.

(** X28: on the loop of [TestPacketConnICMPEcho] with a buffer of at
    least 8 bytes, after any number of datagrams that are Echo Requests
    the first datagram that decodes to another type is what the loop
    returns: type, code and checksum are those of that datagram and, when
    it has at least 8 bytes, so are the identifier and the sequence of its
    body; nothing behind it is read. *)
Theorem packet_loop_returns_first_non_request :
  forall (rb : list Z) (pre : list (list Z)) (pkt : list Z) (rest : conn)
         (mp : icmpMessage),
    (8 <= length rb)%nat ->
    Forall (isRequestDatagram false) pre ->
    decodeAlone false pkt = Ok mp ->
    isEchoRequest (Typ mp) = false ->
    exists m : icmpMessage,
      recvLoop false (map Datagram pre ++ Datagram pkt :: rest) rb = Ok m
      /\ Typ m = Typ mp /\ Code m = Code mp /\ Checksum m = Checksum mp
      /\ ((8 <= length pkt)%nat ->
          forall p : icmpEcho,
            Body mp = Some p ->
            exists p' : icmpEcho,
              Body m = Some p' /\ ID p' = ID p /\ Seq p' = Seq p).
Proof.
  intros rb pre pkt rest mp Hrb Hpre Hmp Hnot.
  destruct (packet_requests_skipped rb pre Hrb Hpre) as (rb' & Hs & Hlen).
  destruct (packet_step rb' pkt mp) as (m & Hstep & Ht & Hrest);
    [lia | exact Hmp |].
  exists m. split; [| split; [exact Ht | exact Hrest]].
  rewrite (recvLoop_skips _ _ _ _ _ Hs), recvLoop_datagram, Hstep, Ht, Hnot.
  reflexivity.
Qed.

Lemma packet_loop_returns_first_non_request_witness :
  (8 <= length (repeat 0%Z 88))%nat
  /\ Forall (isRequestDatagram false)
       (repeat (wire (echoMessage icmpv4EchoRequest 0x1234 1 gadget3)) 5)
  /\ decodeAlone false (wire (echoMessage icmpv4EchoReply 0x1234 1 gadget3))
     = Ok (mkMessage icmpv4EchoReply 0 65419
             (Some (mkEcho 0x1234 1 (Some gadget3))))
  /\ exists m : icmpMessage,
      recvLoop false
        (map Datagram
           (repeat (wire (echoMessage icmpv4EchoRequest 0x1234 1 gadget3)) 5)
         ++ Datagram (wire (echoMessage icmpv4EchoReply 0x1234 1 gadget3)) :: [])
        (repeat 0 88)
      = Ok m
      /\ Typ m = icmpv4EchoReply
      /\ exists p' : icmpEcho,
          Body m = Some p' /\ ID p' = 0x1234 /\ Seq p' = 1.
Proof.
  assert (Hreq : isRequestDatagram false
                   (wire (echoMessage icmpv4EchoRequest 0x1234 1 gadget3))).
  { eexists. split; vm_compute; reflexivity. }
  assert (H8 : (8 <= length (repeat 0%Z 88))%nat)
    by (rewrite repeat_length; lia).
  assert (Hpre : Forall (isRequestDatagram false)
                   (repeat (wire (echoMessage icmpv4EchoRequest 0x1234 1 gadget3)) 5))
    by (repeat constructor; exact Hreq).
  assert (Hmp : decodeAlone false
                  (wire (echoMessage icmpv4EchoReply 0x1234 1 gadget3))
                = Ok (mkMessage icmpv4EchoReply 0 65419
                        (Some (mkEcho 0x1234 1 (Some gadget3)))))
    by (vm_compute; reflexivity).
  split; [exact H8 |]. split; [exact Hpre |]. split; [exact Hmp |].
  destruct (packet_loop_returns_first_non_request _ _ _ [] _ H8 Hpre Hmp eq_refl)
    as (m & Hm & Ht & _ & _ & Hbody).
  exists m. split; [exact Hm |]. split; [exact Ht |].
  apply (Hbody ltac:(vm_compute; lia) _ eq_refl).
Defined.

(** X29: the ["ip4"] loop of [TestConnICMPEcho] returns the first
    datagram that is not an Echo Request as long as its buffer lasts.
    Every datagram is an IPv4 header of 20 bytes in front of an ICMP
    message of at least 8 bytes, and every read leaves the buffer 20
    bytes shorter; when the buffer had 20 bytes for each datagram up to
    that one and 8 more (with the 88 bytes of the tests: up to the
    fourth datagram), the message returned has the type, code, checksum,
    identifier and sequence of that datagram. *)
Theorem conn_loop_returns_first_non_request :
  forall (rb : list Z) (pre : list (list Z)) (pkt : list Z) (rest : conn)
         (mp : icmpMessage),
    (20 * (length pre + 1) + 8 <= length rb)%nat ->
    Forall (fun q => ip4Datagram q /\ isRequestDatagram true q) pre ->
    ip4Datagram pkt ->
    decodeAlone true pkt = Ok mp ->
    isEchoRequest (Typ mp) = false ->
    exists m : icmpMessage,
      recvLoop true (map Datagram pre ++ Datagram pkt :: rest) rb = Ok m
      /\ Typ m = Typ mp /\ Code m = Code mp /\ Checksum m = Checksum mp
      /\ (forall p : icmpEcho,
             Body mp = Some p ->
             exists p' : icmpEcho,
               Body m = Some p' /\ ID p' = ID p /\ Seq p' = Seq p).
Proof.
  intros rb pre pkt rest mp Hrb Hpre Hd Hmp Hnot.
  destruct (conn_requests_skipped rb pre) as (rb' & Hs & Hlen);
    [lia | exact Hpre |].
  destruct (conn_step rb' pkt mp) as (m & Hstep & Ht & Hrest);
    [lia | exact Hd | exact Hmp |].
  exists m. split; [| split; [exact Ht | exact Hrest]].
  rewrite (recvLoop_skips _ _ _ _ _ Hs), recvLoop_datagram, Hstep, Ht, Hnot.
  reflexivity.
Qed.

Lemma conn_loop_returns_first_non_request_witness :
  (20 * (length (repeat (echoDatagram icmpv4EchoRequest 0x1234 1 gadget3) 3) + 1)
   + 8 <= length (repeat 0%Z 88))%nat
  /\ Forall (fun q => ip4Datagram q /\ isRequestDatagram true q)
       (repeat (echoDatagram icmpv4EchoRequest 0x1234 1 gadget3) 3)
  /\ ip4Datagram (echoDatagram icmpv4EchoReply 0x1234 1 gadget3)
  /\ decodeAlone true (echoDatagram icmpv4EchoReply 0x1234 1 gadget3)
     = Ok (mkMessage icmpv4EchoReply 0 65419
             (Some (mkEcho 0x1234 1 (Some gadget3))))
  /\ exists m : icmpMessage,
      recvLoop true
        (map Datagram (repeat (echoDatagram icmpv4EchoRequest 0x1234 1 gadget3) 3)
         ++ Datagram (echoDatagram icmpv4EchoReply 0x1234 1 gadget3) :: [])
        (repeat 0 88)
      = Ok m
      /\ Typ m = icmpv4EchoReply
      /\ exists p' : icmpEcho,
          Body m = Some p' /\ ID p' = 0x1234 /\ Seq p' = 1.
Proof.
  assert (Hreq : ip4Datagram (echoDatagram icmpv4EchoRequest 0x1234 1 gadget3)
                 /\ isRequestDatagram true
                      (echoDatagram icmpv4EchoRequest 0x1234 1 gadget3)).
  { split; [split; [vm_compute; lia | reflexivity] |].
    eexists. split; vm_compute; reflexivity. }
  assert (H88 : (20 * (length (repeat (echoDatagram icmpv4EchoRequest 0x1234 1
                                          gadget3) 3) + 1)
                 + 8 <= length (repeat 0%Z 88))%nat)
    by (rewrite !repeat_length; lia).
  assert (Hpre : Forall (fun q => ip4Datagram q /\ isRequestDatagram true q)
                   (repeat (echoDatagram icmpv4EchoRequest 0x1234 1 gadget3) 3))
    by (repeat constructor; exact (proj1 Hreq) || exact (proj2 Hreq)).
  assert (Hd : ip4Datagram (echoDatagram icmpv4EchoReply 0x1234 1 gadget3))
    by (split; [vm_compute; lia | reflexivity]).
  assert (Hmp : decodeAlone true (echoDatagram icmpv4EchoReply 0x1234 1 gadget3)
                = Ok (mkMessage icmpv4EchoReply 0 65419
                        (Some (mkEcho 0x1234 1 (Some gadget3)))))
    by (vm_compute; reflexivity).
  split; [exact H88 |]. split; [exact Hpre |]. split; [exact Hd |].
  split; [exact Hmp |].
  destruct (conn_loop_returns_first_non_request _ _ _ [] _ H88 Hpre Hd Hmp eq_refl)
    as (m & Hm & Ht & _ & _ & Hbody).
  exists m. split; [exact Hm |]. split; [exact Ht |].
  apply (Hbody _ eq_refl).
Defined.

(** * Helpers of [run.go] and [gofmt.go] *)

Open Scope string_scope.

(** ** Prefixes and suffixes *)

Lemma prefix_iff (p s : string) :
  String.prefix p s = true <-> exists v : string, s = p ++ v.
Proof.
  revert s. induction p as [| a p IH]; intros s.
  - split; [intros _; exists s; reflexivity |].
    intros _. destruct s; reflexivity.
  - destruct s as [| b s]; cbn [String.prefix append].
    + split; [discriminate | intros [v Hv]; discriminate Hv].
    + destruct (ascii_dec a b) as [-> | Hab].
      * rewrite IH. split; intros [v Hv]; exists v; congruence.
      * split; [discriminate | intros [v Hv]; congruence].
Qed.

Lemma append_assoc (a b c : string) : (a ++ b) ++ c = a ++ b ++ c.
Proof.
  induction a as [| x a IH]; cbn [append]; [reflexivity | rewrite IH; reflexivity].
Qed.

Lemma HasPrefix_append (s r t : string) :
  HasPrefix s (r ++ t) = true -> HasPrefix s r = true.
Proof.
  unfold HasPrefix. rewrite !prefix_iff. intros [v Hv].
  exists (t ++ v). rewrite Hv. apply append_assoc.
Qed.

Lemma HasSuffix_iff (s suf : string) :
  HasSuffix s suf = true <-> exists pre : string, s = pre ++ suf.
Proof.
  induction s as [| a s IH]; cbn [HasSuffix].
  - rewrite orb_false_r, String.eqb_eq. split.
    + intros <-. exists "". reflexivity.
    + intros [pre Hpre]. destruct pre; [exact Hpre | discriminate Hpre].
  - rewrite orb_true_iff, String.eqb_eq, IH. split.
    + intros [<- | [pre ->]]; [exists ""; reflexivity |].
      exists (String a pre). reflexivity.
    + intros [pre Hpre]. destruct pre as [| b pre]; cbn [append] in Hpre.
      * left. exact Hpre.
      * right. exists pre. congruence.
Qed.

(** ** [filterOut] *)

Lemma removed_existsb (s : string) (remove : list string) :
  removed s remove = existsb (fun r => HasPrefix s (r ++ "=")) remove.
Proof.
  induction remove as [| r remove IH]; cbn [removed existsb]; [reflexivity |].
  rewrite <- IH.
  destruct (HasPrefix s (r ++ "=")) eqn:E.
  - rewrite (HasPrefix_append _ _ _ E). reflexivity.
  - rewrite andb_false_r. reflexivity.
Qed.

Lemma removed_iff (s : string) (remove : list string) :
  removed s remove = true
  <-> exists r v : string, In r remove /\ s = r ++ "=" ++ v.
Proof.
  rewrite removed_existsb, existsb_exists. split.
  - intros (r & Hr & Hp). unfold HasPrefix in Hp.
    apply prefix_iff in Hp. destruct Hp as [v Hv].
    exists r, v. split; [exact Hr |]. rewrite Hv. apply append_assoc.
  - intros (r & v & Hr & Hs). exists r. split; [exact Hr |].
    unfold HasPrefix. apply prefix_iff. exists v.
    rewrite Hs. symmetry. apply append_assoc.
Qed.

(** X18: [filterOut] keeps exactly the entries of [src] that are not of
    the form [r=...] for a name [r] of [remove]; an entry whose name only
    begins with [r], or equals [r] without the [=], stays. *)
Theorem filterOut_In :
  forall (src remove : list string) (s : string),
    In s (filterOut src remove)
    <-> In s src
        /\ ~ exists r v : string, In r remove /\ s = r ++ "=" ++ v.
Proof.
  intros src remove s.
  induction src as [| x src IH]; cbn [filterOut In].
  - tauto.
  - destruct (removed x remove) eqn:E.
    + rewrite IH. apply removed_iff in E. split.
      * intros [H1 H2]. split; [right; exact H1 | exact H2].
      * intros [[-> | H1] H2]; [contradiction | split; assumption].
    + cbn [In]. rewrite IH.
      assert (Hx : ~ exists r v : string, In r remove /\ x = r ++ "=" ++ v).
      { intros H. apply removed_iff in H. congruence. }
      split.
      * intros [<- | [H1 H2]]; [split; [left; reflexivity | exact Hx] |].
        split; [right; exact H1 | exact H2].
      * intros [[-> | H1] H2]; [left; reflexivity | right; split; assumption].
Qed.

(** X19: [filterOut] is a filter: the entries kept come in the order and
    number they have in [src], and the first of the two prefix tests of
    the source decides nothing. *)
Theorem filterOut_filter :
  forall src remove : list string,
    filterOut src remove
    = filter (fun s => negb (existsb (fun r => HasPrefix s (r ++ "=")) remove))
             src.
Proof.
  intros src remove.
  induction src as [| x src IH]; cbn [filterOut filter]; [reflexivity |].
  rewrite <- removed_existsb, IH.
  destruct (removed x remove); reflexivity.
Qed.

Lemma removed_app (s : string) (r1 r2 : list string) :
  removed s (r1 ++ r2) = removed s r1 || removed s r2.
Proof. rewrite !removed_existsb. apply existsb_app. Qed.

(** X20: removing in two passes is removing the names of both lists at
    once; removing no name returns [src]; removing twice changes nothing
    more. *)
Theorem filterOut_compose :
  forall src r1 r2 : list string,
    filterOut (filterOut src r1) r2 = filterOut src (r1 ++ r2)
    /\ filterOut src [] = src
    /\ filterOut (filterOut src r1) r1 = filterOut src r1.
Proof.
  assert (Hcomp : forall src a b,
             filterOut (filterOut src a) b = filterOut src (a ++ b)).
  { intros src a b. induction src as [| x src IH]; cbn [filterOut]; [reflexivity |].
    rewrite removed_app.
    destruct (removed x a) eqn:Ea; cbn [orb].
    - exact IH.
    - cbn [filterOut]. destruct (removed x b); [exact IH | rewrite IH; reflexivity]. }
  intros src r1 r2.
  split; [apply Hcomp |]. split.
  - clear Hcomp. induction src as [| x src IH]; cbn [filterOut removed]; [reflexivity |].
    rewrite IH. reflexivity.
  - rewrite Hcomp. clear Hcomp.
    induction src as [| x src IH]; cbn [filterOut]; [reflexivity |].
    rewrite removed_app, orb_diag, IH. reflexivity.
Qed.

(** ** [file] *)

(** X21: [file] panics on no argument; on [n >= 1] names it returns the
    [n] paths [$GOROOT/api/<name>.txt], in order, separated by commas. *)
Theorem file_joins :
  forall (goroot : string) (Join : list string -> string) (s : list string),
    file goroot Join [] = Panic
    /\ (s <> [] ->
        file goroot Join s
        = Ok (String.concat ","
                (map (fun x => Join [goroot; "api"; x ++ ".txt"]) s))).
Proof.
  intros goroot Join s. split; [reflexivity |].
  induction s as [| x s IH]; intros Hne; [contradiction |].
  destruct s as [| y rest].
  - simp file. reflexivity.
  - simp file. rewrite IH by discriminate.
    cbn [bind map String.concat]. reflexivity.
Qed.

Lemma file_joins_witness :
  ["go1"; "go1.1"] <> []
  /\ file "/go" (String.concat "/") ["go1"; "go1.1"]
     = Ok "/go/api/go1.txt,/go/api/go1.1.txt".
Proof.
  split; [discriminate |].
  apply (proj2 (file_joins "/go" (String.concat "/") ["go1"; "go1.1"])).
  discriminate.
Defined.

(** ** [isGoFile] *)

(** X22: [isGoFile] accepts exactly the regular files whose name ends in
    [.go] and does not begin with a dot; such a name has a first
    character other than the dot in front of the [.go], so [.go] itself
    is refused. *)
Theorem isGoFile_iff :
  forall d : Dir,
    isGoFile d = true
    <-> IsRegular d = true
        /\ exists (c : ascii) (stem : string),
            c <> "."%char /\ Name d = String c (stem ++ ".go").
Proof.
  intros d. unfold isGoFile.
  rewrite !andb_true_iff, negb_true_iff, HasSuffix_iff.
  split.
  - intros [[Hreg Hdot] [pre Hpre]].
    split; [exact Hreg |].
    destruct pre as [| c stem].
    + rewrite Hpre in Hdot. vm_compute in Hdot. discriminate Hdot.
    + exists c, stem. split; [| exact Hpre].
      intros ->.
      assert (Ht : HasPrefix (Name d) "." = true).
      { unfold HasPrefix. apply prefix_iff. exists (stem ++ ".go").
        rewrite Hpre. reflexivity. }
      congruence.
  - intros [Hreg (c & stem & Hc & Hname)].
    split; [split; [exact Hreg |] |].
    + rewrite Hname. unfold HasPrefix. cbn [String.prefix].
      destruct (ascii_dec "." c) as [E | _]; [congruence | reflexivity].
    + exists (String c stem). exact Hname.
Qed.

(** ** [processFile] *)

Section GofmtProps.

Variable AST : Type.
Variable ParseFile : string -> list Z -> result AST.
Variable rewrite : option (AST -> AST).
Variable Fprint : AST -> result (list Z).
Variable WriteFile : string -> list Z -> result unit.
Variable StdoutWriteAll : list Z -> result unit.
Variables list_flag write_flag : bool.

Local Abbreviation run :=
  (processFile AST ParseFile rewrite Fprint WriteFile StdoutWriteAll
               list_flag write_flag).

Local Abbreviation rewritten parsed :=
  (match rewrite with Some f => f parsed | None => parsed end).

Lemma differ_iff (src res : list Z) : differ src res = true <-> res <> src.
Proof.
  unfold differ. destruct (list_eq_dec Z.eq_dec src res) as [-> | Hne].
  - split; [discriminate | intros H; contradiction H; reflexivity].
  - split; [intros _ E; apply Hne; symmetry; exact E | reflexivity].
Qed.

(** X23: [processFile] makes no visible call (no name printed, no file
    written, nothing on standard output) unless reading, parsing and
    printing all succeeded; a failure of one of these is returned as it
    is. *)
Theorem processFile_silent_failure :
  forall (name : string) (content : result (list Z)),
    (exists (src : list Z) (parsed : AST) (res : list Z),
        content = Ok src /\ ParseFile name src = Ok parsed
        /\ Fprint (rewritten parsed) = Ok res)
    \/ (fst (run name content) = []
        /\ forall u, snd (run name content) <> Ok u).
Proof.
  intros name content. unfold processFile.
  destruct content as [src | e |]; [| right; split; [reflexivity | discriminate] ..].
  destruct (ParseFile name src) as [parsed | e |] eqn:Hparse;
    [| right; split; [reflexivity | discriminate] ..].
  destruct (Fprint (rewritten parsed)) as [res | e |] eqn:Hp;
    [| right; split; [reflexivity | discriminate] ..].
  left. exists src, parsed, res.
  split; [reflexivity |]. split; [exact Hparse | exact Hp].
Qed.

(** X24: once the source is read, parsed and printed to [res], the file
    is written exactly when [-w] is set and [res] differs from the
    source, and then with [res] under its own name; its name is printed
    exactly when [-l] is set and [res] differs; [res] goes to standard
    output exactly when neither flag is set. *)
Theorem processFile_effects :
  forall (name : string) (content : result (list Z))
         (src : list Z) (parsed : AST) (res : list Z),
    content = Ok src ->
    ParseFile name src = Ok parsed ->
    Fprint (rewritten parsed) = Ok res ->
    (forall n d,
        In (WriteFileCall n d) (fst (run name content))
        <-> write_flag = true /\ res <> src /\ n = name /\ d = res)
    /\ (forall n,
           In (Println n) (fst (run name content))
           <-> list_flag = true /\ res <> src /\ n = name)
    /\ (forall d,
           In (StdoutWrite d) (fst (run name content))
           <-> list_flag = false /\ write_flag = false /\ d = res).
Proof.
  intros name content src parsed res -> Hparse Hprint.
  unfold processFile. rewrite Hparse, Hprint.
  pose proof (differ_iff src res) as Hd.
  destruct (differ src res) eqn:Ed;
    destruct list_flag, write_flag; cbn [andb negb];
    try destruct (WriteFile name res); cbn [fst app In];
    (split; [| split]); intros; split; intros H;
    repeat match goal with
           | H : _ \/ _ |- _ => destruct H
           | H : _ /\ _ |- _ => destruct H
           | H : False |- _ => contradiction H
           | H : WriteFileCall _ _ = WriteFileCall _ _ |- _ =>
               injection H as <- <-
           | H : Println _ = Println _ |- _ => injection H as <-
           | H : StdoutWrite _ = StdoutWrite _ |- _ => injection H as <-
           | H : true = false |- _ => discriminate H
           | H : false = true |- _ => discriminate H
           | H : _ = _ :> effect |- _ => discriminate H
           end;
    subst;
    try (repeat split; solve [reflexivity | apply Hd; reflexivity]);
    try (exfalso; match goal with
                  | H : ?x <> ?y |- _ =>
                      apply Hd in H; discriminate H
                  end);
    auto.
Qed.

End GofmtProps.

Lemma processFile_effects_witness :
  In (WriteFileCall "a.go" [1; 10])
     (fst (processFile (list Z) (fun _ src => Ok src) None
             (fun a => Ok (a ++ [10])%list) (fun _ _ => Ok tt) (fun _ => Ok tt)
             true true "a.go" (Ok [1])))
  /\ ~ In (StdoutWrite [1; 10])
       (fst (processFile (list Z) (fun _ src => Ok src) None
               (fun a => Ok (a ++ [10])%list) (fun _ _ => Ok tt) (fun _ => Ok tt)
               true true "a.go" (Ok [1]))).
Proof.
  destruct (processFile_effects (list Z) (fun _ src => Ok src) None
              (fun a => Ok (a ++ [10])%list) (fun _ _ => Ok tt) (fun _ => Ok tt)
              true true "a.go" (Ok [1]) [1] [1] [1; 10]
              eq_refl eq_refl eq_refl) as (Hw & _ & Hs).
  split.
  - apply Hw. repeat split. discriminate.
  - intros H. apply Hs in H. destruct H as [H _]. discriminate H.
Defined.

Close Scope string_scope.

Example filterOut_goarch :
  filterOut ["GOARCH=amd64"; "GOARCHX=1"; "PATH=/bin"; "GOARCH"]%string
            ["GOARCH"]%string
  = ["GOARCHX=1"; "PATH=/bin"; "GOARCH"]%string.
Proof. reflexivity. Qed.

(** * One exchange of the echo test *)

Lemma recvLoop_wire_reply
      (trep c0 c1 : Z) (p : icmpEcho) (rest : conn) :
  isEchoType trep = true -> isEchoRequest trep = false ->
  is_u16 (ID p) -> is_u16 (Seq p) ->
  recvLoop false
    (Datagram (trep :: 0 :: c0 :: c1 :: body_bytes (Some p)) :: rest)
    (repeat 0 (20 + length (trep :: 0 :: c0 :: c1 :: body_bytes (Some p))))
  = Ok (mkMessage trep 0 (Z.lor (Z.shiftl c0 8) c1)
          (Some (mkEcho (ID p) (Seq p)
                   (Some (slice_elems (Data p) ++ repeat 0 20))))).
Proof.
  intros Hrep Hnot Hid Hseq.
  rewrite recvLoop_datagram, recvStep_packet, fill_fresh_buffer.
  rewrite parse_echo_padded by assumption.
  cbv beta iota delta [bind Typ]. rewrite Hnot.
  unfold decoded_payload. cbn [slice_elems].
  destruct (slice_elems (Data p)); reflexivity.
Qed.

Lemma testKey_in_range (pid i : Z) :
  0 <= i < 65535 -> is_u16 (Z.land pid 0xffff) /\ is_u16 (i + 1).
Proof.
  intros Hi. rewrite land_ffff. unfold is_u16.
  split; [apply Z.mod_pos_bound; lia | lia].
Qed.

(** X25: an iteration of [TestPacketConnICMPEcho] passes when the
    transport delivers the reply to its request, also when the request
    itself comes back first: with the key [(pid & 0xffff, i+1)] the reply
    encoded for that key is returned by the loop and accepted by the
    check. *)
Theorem packetConnExchange_passes :
  forall (typ rtyp pid i : Z) (wb wr : list Z) (rest : conn),
    (typ = icmpv4EchoRequest /\ rtyp = icmpv4EchoReply
     \/ typ = icmpv6EchoRequest /\ rtyp = icmpv6EchoReply) ->
    0 <= i < 65535 ->
    icmpMessage_Marshal (echoMessage typ (Z.land pid 0xffff) (i + 1) gadget3)
    = Ok wb ->
    icmpMessage_Marshal (echoMessage rtyp (Z.land pid 0xffff) (i + 1) gadget3)
    = Ok wr ->
    packetConnExchange typ pid i (Datagram wr :: rest) = Ok true
    /\ packetConnExchange typ pid i (Datagram wb :: Datagram wr :: rest)
       = Ok true.
Proof.
  intros typ rtyp pid i wb wr rest Hty Hi Hwb Hwr.
  destruct (testKey_in_range pid i Hi) as [Hid Hseq].
  assert (Hreq : isEchoRequest typ = true)
    by (destruct Hty as [[-> _] | [-> _]]; reflexivity).
  assert (Hrep : isEchoType rtyp = true)
    by (destruct Hty as [[_ ->] | [_ ->]]; reflexivity).
  assert (Hnot : isEchoRequest rtyp = false)
    by (destruct Hty as [[_ ->] | [_ ->]]; reflexivity).
  unfold packetConnExchange. cbv zeta. rewrite Hwb. cbv beta iota delta [bind].
  destruct (echoMessage_wire typ (Z.land pid 0xffff) (i + 1) gadget3
              (isEchoRequest_isEchoType _ Hreq)) as (a0 & a1 & Ea).
  destruct (echoMessage_wire rtyp (Z.land pid 0xffff) (i + 1) gadget3 Hrep)
    as (c0 & c1 & Ec).
  rewrite Ea in Hwb. apply Ok_inj in Hwb. subst wb.
  rewrite Ec in Hwr. apply Ok_inj in Hwr. subst wr.
  assert (Hcheck : forall ck d,
             checkReply (mkMessage rtyp 0 ck
                           (Some (mkEcho (Z.land pid 0xffff) (i + 1) d)))
                        (Z.land pid 0xffff) (i + 1) = true).
  { intros ck d. unfold checkReply. cbv beta iota delta [Body ID Seq].
    rewrite !Z.eqb_refl. reflexivity. }
  split.
  - change (length (typ :: 0 :: a0 :: a1
                    :: body_bytes (Some (mkEcho (Z.land pid 0xffff) (i + 1) (Some gadget3)))))
      with (length (rtyp :: 0 :: c0 :: c1
                    :: body_bytes (Some (mkEcho (Z.land pid 0xffff) (i + 1) (Some gadget3))))).
    rewrite recvLoop_wire_reply by assumption.
    cbv beta iota delta [ID Seq Data]. rewrite Hcheck. reflexivity.
  - rewrite recvLoop_wire_request_then_reply by assumption.
    cbv beta iota delta [ID Seq Data]. rewrite Hcheck. reflexivity.
Qed.

Lemma packetConnExchange_passes_witness :
  (icmpv4EchoRequest = icmpv4EchoRequest /\ icmpv4EchoReply = icmpv4EchoReply
   \/ icmpv4EchoRequest = icmpv6EchoRequest /\ icmpv4EchoReply = icmpv6EchoReply)
  /\ 0 <= 0 < 65535
  /\ exists wb wr : list Z,
      icmpMessage_Marshal (echoMessage 8 (Z.land 4242 0xffff) (0 + 1) gadget3) = Ok wb
      /\ icmpMessage_Marshal (echoMessage 0 (Z.land 4242 0xffff) (0 + 1) gadget3) = Ok wr
      /\ packetConnExchange 8 4242 0 [Datagram wb; Datagram wr] = Ok true.
Proof.
  split; [left; split; reflexivity |]. split; [lia |].
  eexists. eexists. split; [reflexivity |]. split; [reflexivity |].
  apply (packetConnExchange_passes icmpv4EchoRequest icmpv4EchoReply 4242 0 _ _ []).
  - left; split; reflexivity.
  - lia.
  - reflexivity.
  - reflexivity.
Defined.

(** X26: the check correlates: a reply that carries another sequence
    number, or a message of an unrecognized type (which is decoded without
    a body), makes the iteration fail at the check. *)
Theorem packetConnExchange_rejects :
  forall (typ rtyp pid i xseq' t : Z) (wr' : list Z) (rest : conn),
    (typ = icmpv4EchoRequest \/ typ = icmpv6EchoRequest) ->
    (rtyp = icmpv4EchoReply \/ rtyp = icmpv6EchoReply) ->
    0 <= i < 65535 ->
    is_u16 xseq' -> xseq' <> i + 1 ->
    isEchoType t = false ->
    icmpMessage_Marshal (echoMessage rtyp (Z.land pid 0xffff) xseq' gadget3)
    = Ok wr' ->
    packetConnExchange typ pid i (Datagram wr' :: rest) = Ok false
    /\ packetConnExchange typ pid i (Datagram [t; 0; 0; 0] :: rest) = Ok false.
Proof.
  intros typ rtyp pid i xseq' t wr' rest Hty Hrty Hi Hseq' Hne Hopaque Hwr.
  destruct (testKey_in_range pid i Hi) as [Hid _].
  assert (Hreq : isEchoType typ = true)
    by (destruct Hty as [-> | ->]; reflexivity).
  assert (Hrep : isEchoType rtyp = true)
    by (destruct Hrty as [-> | ->]; reflexivity).
  assert (Hnot : isEchoRequest rtyp = false)
    by (destruct Hrty as [-> | ->]; reflexivity).
  unfold packetConnExchange. cbv zeta.
  destruct (echoMessage_wire typ (Z.land pid 0xffff) (i + 1) gadget3 Hreq)
    as (a0 & a1 & Ea).
  destruct (echoMessage_wire rtyp (Z.land pid 0xffff) xseq' gadget3 Hrep)
    as (c0 & c1 & Ec).
  rewrite Ea. cbv beta iota delta [bind].
  rewrite Ec in Hwr. apply Ok_inj in Hwr. subst wr'.
  split.
  - change (length (typ :: 0 :: a0 :: a1
                    :: body_bytes (Some (mkEcho (Z.land pid 0xffff) (i + 1) (Some gadget3)))))
      with (length (rtyp :: 0 :: c0 :: c1
                    :: body_bytes (Some (mkEcho (Z.land pid 0xffff) xseq' (Some gadget3))))).
    rewrite recvLoop_wire_reply by assumption.
    unfold checkReply. cbv beta iota delta [Body ID Seq].
    apply Z.eqb_neq in Hne. rewrite Hne, Z.eqb_refl. reflexivity.
  - rewrite recvLoop_datagram, recvStep_packet.
    assert (Hopq : isEchoRequest t = false).
    { destruct (isEchoRequest t) eqn:E; [| reflexivity].
      apply isEchoRequest_isEchoType in E. congruence. }
    assert (Hfill : exists tail,
               fill (repeat 0 (20 + length (typ :: 0 :: a0 :: a1
                        :: body_bytes (Some (mkEcho (Z.land pid 0xffff) (i + 1) (Some gadget3))))))
                    [t; 0; 0; 0]
               = t :: 0 :: 0 :: 0 :: 0 :: tail).
    { eexists. reflexivity. }
    destruct Hfill as [tail ->].
    rewrite parseICMPMessage_cons5, Hopaque.
    cbv beta iota delta [bind Typ]. rewrite Hopq. reflexivity.
Qed.

Lemma packetConnExchange_rejects_witness :
  is_u16 7 /\ 7 <> 0 + 1 /\ isEchoType 3 = false
  /\ exists wr' : list Z,
      icmpMessage_Marshal (echoMessage 0 (Z.land 4242 0xffff) 7 gadget3) = Ok wr'
      /\ packetConnExchange 8 4242 0 [Datagram wr'] = Ok false
      /\ packetConnExchange 8 4242 0 [Datagram [3; 0; 0; 0]] = Ok false.
Proof.
  assert (H7 : is_u16 7) by (unfold is_u16; lia).
  assert (Hne : 7 <> 0 + 1) by lia.
  split; [exact H7 |]. split; [exact Hne |].
  split; [reflexivity |].
  eexists. split; [reflexivity |].
  apply (packetConnExchange_rejects 8 0 4242 0 7 3 _ []).
  - left; reflexivity.
  - left; reflexivity.
  - lia.
  - exact H7.
  - exact Hne.
  - reflexivity.
  - reflexivity.
Defined.

(** * The echo server *)

Lemma echo_chunk (buf data : list Z) :
  firstn (Nat.min (length data) (length (fill buf data))) (fill buf data)
  = firstn (length buf) data.
Proof.
  rewrite fill_length. unfold fill.
  rewrite firstn_app, length_firstn.
  replace (Nat.min (length data) (length buf)
           - Nat.min (length buf) (length data))%nat with 0%nat by lia.
  cbn [firstn]. rewrite app_nil_r.
  rewrite firstn_firstn.
  replace (Nat.min (Nat.min (length data) (length buf)) (length buf))
    with (Nat.min (length buf) (length data)) by lia.
  destruct (Nat.le_ge_cases (length buf) (length data)) as [H | H].
  - rewrite Nat.min_l by exact H. reflexivity.
  - rewrite Nat.min_r by exact H.
    rewrite !firstn_all2 by lia. reflexivity.
Qed.

Lemma echoLoop_prefix (pre rest : list read_result) :
  Forall (fun r => rerr r = None /\ rdata r <> []) pre ->
  forall buf : list Z,
    buf <> [] ->
    echoLoop (pre ++ rest) buf
    = (map (fun r => firstn (length buf) (rdata r)) pre
       ++ echoLoop rest
            (fold_left (fun b r => fill b (rdata r)) pre buf))%list.
Proof.
  induction 1 as [| r pre [Herr Hdata] _ IH]; intros buf Hbuf.
  - reflexivity.
  - cbn [app echoLoop map fold_left]. rewrite Herr.
    assert (Hn : (Nat.min (length (rdata r)) (length (fill buf (rdata r)))
                  =? 0)%nat = false).
    { apply Nat.eqb_neq. rewrite fill_length.
      destruct (rdata r); [contradiction Hdata; reflexivity |].
      destruct buf; [contradiction Hbuf; reflexivity |].
      cbn [length]. lia. }
    rewrite Hn, echo_chunk. f_equal.
    rewrite IH.
    + rewrite fill_length. reflexivity.
    + intros E. apply (f_equal (@length Z)) in E.
      rewrite fill_length in E. destruct buf; [contradiction Hbuf; reflexivity |].
      discriminate E.
Qed.

(** X27: [Echo] writes back exactly what it read, chunk by chunk and in
    order (each read cut to the 1024 bytes of its buffer), up to the first
    read that returns an error or no byte; bytes that arrive together
    with an error are not echoed, earlier contents of the buffer never
    reach a later write, and nothing is read after the loop has stopped. *)
Theorem Echo_writes_what_it_reads :
  forall (pre : list read_result) (stop : read_result) (rest : list read_result),
    Forall (fun r => rerr r = None /\ rdata r <> []) pre ->
    rerr stop <> None \/ rdata stop = [] ->
    Echo (pre ++ stop :: rest) = map (fun r => firstn 1024 (rdata r)) pre
    /\ Echo pre = map (fun r => firstn 1024 (rdata r)) pre.
Proof.
  intros pre stop rest Hpre Hstop. unfold Echo.
  assert (Hbuf : repeat 0 1024 <> []) by discriminate.
  split.
  - rewrite (echoLoop_prefix pre (stop :: rest) Hpre _ Hbuf).
    rewrite repeat_length.
    cbn [echoLoop].
    destruct (rerr stop) as [e |] eqn:Herr; [apply app_nil_r |].
    destruct Hstop as [H | H]; [contradiction H; reflexivity |].
    rewrite H. cbn [length Nat.min Nat.eqb]. apply app_nil_r.
  - rewrite <- (app_nil_r pre) at 1.
    rewrite (echoLoop_prefix pre [] Hpre _ Hbuf), repeat_length.
    cbn [echoLoop]. apply app_nil_r.
Qed.

Lemma Echo_writes_what_it_reads_witness :
  Forall (fun r => rerr r = None /\ rdata r <> [])
         [mkRead [104; 105] None; mkRead [10] None]
  /\ (rerr (mkRead [33] (Some "EOF"%string)) <> None
      \/ rdata (mkRead [33] (Some "EOF"%string)) = [])
  /\ Echo ([mkRead [104; 105] None; mkRead [10] None]
           ++ mkRead [33] (Some "EOF"%string) :: [mkRead [63] None])
     = [[104; 105]; [10]].
Proof.
  assert (Hpre : Forall (fun r => rerr r = None /\ rdata r <> [])
                        [mkRead [104; 105] None; mkRead [10] None]).
  { repeat constructor; discriminate. }
  assert (Hstop : rerr (mkRead [33] (Some "EOF"%string)) <> None
                  \/ rdata (mkRead [33] (Some "EOF"%string)) = []).
  { left. discriminate. }
  split; [exact Hpre |]. split; [exact Hstop |].
  exact (proj1 (Echo_writes_what_it_reads _ _ [mkRead [63] None] Hpre Hstop)).
Defined.
